(** * PID controller server: the UDP request loop and its inactivity watchdog

    Shallow embedding of [udp_server_task] from
    [src/main/pid_controller_server.c].  The task is an endless loop around
    a socket; it is modelled as a step function over the task's variables,
    driven by the answers of the environment (what [socket], [bind],
    [ioctl] and [recvfrom] return), and it records every external call it
    makes in a trace. *)

From Stdlib Require Import ZArith List Bool Lia QArith.
From Stdlib.Strings Require Import Byte.
From Stdlib Require Floats.SpecFloat.
Import ListNotations.
Local Open Scope Z_scope.

(** ** Platform constants and macros *)

(** [sizeof(char)] and [sizeof(float)] on the ESP32 target. *)
Definition sizeof_char : nat := 1.
Definition sizeof_float : nat := 4.

(** Line 30: same size for both requests and responses. *)
Definition REQUEST_RESPONSE_BUF_SIZE : nat := sizeof_char + 2 * sizeof_float.

Definition UDP_PORT : Z := 1200.
Definition SERVER_TASK_SLEEP_TIME_MS : Z := 20.
Definition NO_MSG_TIMEOUT_SECONDS : Q := 15.

(** [sizeof(struct sockaddr_in6)] in lwIP. *)
Definition sizeof_sockaddr_in6 : Z := 28.

(** Conversion of a [double] to [int] truncates toward zero. *)
Definition double_to_int (q : Q) : Z := Z.quot (Qnum q) (Zpos (Qden q)).

(** Line 127.  The initialiser is evaluated in [double]; every intermediate
    value (50.0, 750.0) is an integer far below 2^53, so the rational
    computation below yields the same number. *)
Definition no_msg_cnt_warn : Z :=
  double_to_int
    (NO_MSG_TIMEOUT_SECONDS * (1000 / inject_Z SERVER_TASK_SLEEP_TIME_MS))%Q.

(** A C [int] is 32 bits wide; [wrap_int] is the two's complement
    wrap-around of an out-of-range result. *)
Definition INT_MIN : Z := - 2 ^ 31.
Definition INT_MAX : Z := 2 ^ 31 - 1.
Definition wrap_int (z : Z) : Z := (z + 2 ^ 31) mod 2 ^ 32 - 2 ^ 31.

(** ** Data *)

Record sockaddr_in6 := {
  sin6_family : Z;
  sin6_port : Z;
  sin6_addr : list byte
}.

(** Calls that leave the task, in program order. *)
Inductive event :=
| EvSocket (ret : Z)
| EvBind (fd ret : Z)
| EvStreamStop
| EvIoctl (fd data_len : Z)
| EvRecvFrom (fd len : Z)
| EvProcessRequest (request : list byte)
| EvSendTo (fd : Z) (payload : list byte) (dest : sockaddr_in6) (destlen : Z)
| EvDelay (ms : Z)
| EvShutdown (fd : Z)
| EvClose (fd : Z)
| EvTaskDelete.

(** What [recvfrom] finds: a failure, or a datagram with its sender. *)
Inductive recv_result :=
| RecvFail
| RecvData (data : list byte) (src : sockaddr_in6) (srclen : Z).

(** The environment's answers offered to one loop iteration; an iteration
    reads only the ones of the calls it makes. *)
Record answers := {
  socket_ret : Z;
  bind_ret : Z;
  fionread : Z;
  incoming : recv_result
}.

(** Where the task stands between two steps: at the head of the outer
    loop (line 93), at the head of the inner loop (line 130), or past
    [vTaskDelete] (line 204). *)
Inductive location := OuterLoop | InnerLoop | TaskDeleted.

(** [recvfrom(sock, buf, size, 0, &addr, &addrlen)]: at most [size] bytes of
    the datagram overwrite the head of the buffer, the rest of the buffer
    is left as it was, and the sender is stored; a failure returns -1 and
    stores nothing. *)
Definition recvfrom (r : recv_result) (b : list byte) (size : nat)
    (addr : sockaddr_in6) (addrlen : Z)
  : Z * list byte * sockaddr_in6 * Z :=
  match r with
  | RecvFail => (-1, b, addr, addrlen)
  | RecvData data src srclen =>
      let n := Nat.min (length data) size in
      (Z.of_nat n, firstn n data ++ skipn n b, src, srclen)
  end.

(** [memset(b, c, n)]. *)
Definition memset (b : list byte) (c : byte) (n : nat) : list byte :=
  repeat c n ++ skipn n b.

(** The bytes [sendto(sock, b, n, ...)] puts on the wire. *)
Definition sendto_payload (b : list byte) (n : nat) : list byte := firstn n b.

Section Server.

(** The PID data behind [p_pid_data] ([pid.h] is not among the sources). *)
Variable ControllerState : Type.

(** The globals outside this file that the task can reach: the PID data and
    the switch of the telemetry stream task. *)
Record globals := {
  pid_data : ControllerState;
  stream_enabled : bool
}.

(** [process_request] is declared in [commandmanager.h], which is not among
    the sources: it is a parameter.  It receives the buffer, may read and
    write the globals, and leaves its response in the same buffer. *)
Variable process_request : list byte -> globals -> list byte * globals.

(** Modelled from the spec: [stream_stop] is declared in [commandmanager.h],
    which is not among the sources; section 4.4 gives its effect, "disables
    the Telemetry Pusher". *)
Definition stream_stop (g : globals) : globals :=
  {| pid_data := pid_data g; stream_enabled := false |}.

(** The variables of [udp_server_task] (lines 81-90 and 126-128), the
    globals, and the trace of calls made so far. *)
Record task := {
  pc : location;
  buf : list byte;
  sock : Z;
  sourceAddr : sockaddr_in6;
  socklen : Z;
  no_msg_cnt : Z;
  is_stream_stop : bool;
  env : globals;
  trace : list event
}.

Definition set_pc (l : location) (t : task) : task :=
  {| pc := l; buf := buf t; sock := sock t; sourceAddr := sourceAddr t;
     socklen := socklen t; no_msg_cnt := no_msg_cnt t;
     is_stream_stop := is_stream_stop t; env := env t; trace := trace t |}.

Definition set_buf (b : list byte) (t : task) : task :=
  {| pc := pc t; buf := b; sock := sock t; sourceAddr := sourceAddr t;
     socklen := socklen t; no_msg_cnt := no_msg_cnt t;
     is_stream_stop := is_stream_stop t; env := env t; trace := trace t |}.

Definition set_sock (fd : Z) (t : task) : task :=
  {| pc := pc t; buf := buf t; sock := fd; sourceAddr := sourceAddr t;
     socklen := socklen t; no_msg_cnt := no_msg_cnt t;
     is_stream_stop := is_stream_stop t; env := env t; trace := trace t |}.

Definition set_sourceAddr (a : sockaddr_in6) (n : Z) (t : task) : task :=
  {| pc := pc t; buf := buf t; sock := sock t; sourceAddr := a;
     socklen := n; no_msg_cnt := no_msg_cnt t;
     is_stream_stop := is_stream_stop t; env := env t; trace := trace t |}.

Definition set_no_msg_cnt (n : Z) (t : task) : task :=
  {| pc := pc t; buf := buf t; sock := sock t; sourceAddr := sourceAddr t;
     socklen := socklen t; no_msg_cnt := n;
     is_stream_stop := is_stream_stop t; env := env t; trace := trace t |}.

Definition set_is_stream_stop (f : bool) (t : task) : task :=
  {| pc := pc t; buf := buf t; sock := sock t; sourceAddr := sourceAddr t;
     socklen := socklen t; no_msg_cnt := no_msg_cnt t;
     is_stream_stop := f; env := env t; trace := trace t |}.

Definition set_env (g : globals) (t : task) : task :=
  {| pc := pc t; buf := buf t; sock := sock t; sourceAddr := sourceAddr t;
     socklen := socklen t; no_msg_cnt := no_msg_cnt t;
     is_stream_stop := is_stream_stop t; env := g; trace := trace t |}.

Definition emit (e : event) (t : task) : task :=
  {| pc := pc t; buf := buf t; sock := sock t; sourceAddr := sourceAddr t;
     socklen := socklen t; no_msg_cnt := no_msg_cnt t;
     is_stream_stop := is_stream_stop t; env := env t;
     trace := trace t ++ [e] |}.

(** ** The loop bodies *)

(** Lines 132-136: the suspension check at the head of the inner loop. *)
Definition watchdog_check (t : task) : task :=
  if (no_msg_cnt_warn <=? no_msg_cnt t) && negb (is_stream_stop t)
  then set_is_stream_stop true
         (set_env (stream_stop (env t)) (emit EvStreamStop t))
  else t.

(** Lines 188-193: no data available. *)
Definition idle_branch (t : task) : task :=
  let t1 := if is_stream_stop t then t
            else set_no_msg_cnt (wrap_int (no_msg_cnt t + 1)) t in
  emit (EvDelay SERVER_TASK_SLEEP_TIME_MS) t1.

(** Lines 196-200: after [break] out of the inner loop. *)
Definition leave_inner_loop (t : task) : task :=
  let t1 := if sock t =? -1 then t
            else emit (EvClose (sock t)) (emit (EvShutdown (sock t)) t) in
  set_pc OuterLoop t1.

(** Lines 161-185: a datagram was received.  The sender's address is also
    formatted into [addr_str] (lines 163-168), which nothing reads. *)
Definition handle_datagram (t : task) : task :=
  let request := buf t in
  let (response, g) := process_request request (env t) in
  let t1 := set_env g (set_buf response (emit (EvProcessRequest request) t)) in
  let t2 := emit (EvSendTo (sock t1)
                    (sendto_payload (buf t1) REQUEST_RESPONSE_BUF_SIZE)
                    (sourceAddr t1) (socklen t1)) t1 in
  let t3 := set_buf (memset (buf t2) x00 REQUEST_RESPONSE_BUF_SIZE) t2 in
  set_is_stream_stop false (set_no_msg_cnt 0 t3).

(** Lines 152-185: data is available. *)
Definition request_branch (a : answers) (t : task) : task :=
  let '(len, b, src, srclen) :=
    recvfrom (incoming a) (buf t) REQUEST_RESPONSE_BUF_SIZE
      (sourceAddr t) sizeof_sockaddr_in6 in
  let t1 := emit (EvRecvFrom (sock t) len)
              (set_sourceAddr src srclen (set_buf b t)) in
  if len <? 0 then leave_inner_loop t1 else handle_datagram t1.

(** Lines 130-194: one iteration of the inner loop. *)
Definition inner_iteration (a : answers) (t : task) : task :=
  let t1 := watchdog_check t in
  let t2 := emit (EvIoctl (sock t1) (fionread a)) t1 in
  if 0 <? fionread a then request_branch a t2 else idle_branch t2.

(** Lines 93-128: the head of the outer loop, up to the inner loop. *)
Definition outer_iteration (a : answers) (t : task) : task :=
  let t1 := emit (EvSocket (socket_ret a)) (set_sock (socket_ret a) t) in
  if sock t1 <? 0 then emit EvTaskDelete (set_pc TaskDeleted t1)
  else
    let t2 := emit (EvBind (sock t1) (bind_ret a)) t1 in
    set_pc InnerLoop (set_is_stream_stop false (set_no_msg_cnt 0 t2)).

Definition step (a : answers) (t : task) : task :=
  match pc t with
  | OuterLoop => outer_iteration a t
  | InnerLoop => inner_iteration a t
  | TaskDeleted => t
  end.

Fixpoint run (l : list answers) (t : task) : task :=
  match l with
  | [] => t
  | a :: l' => run l' (step a t)
  end.

(** The task as [xTaskCreate] starts it: [stack] is whatever the stack
    holds where [buf] is placed; [sock], [sourceAddr] and [socklen] are
    zero-initialised globals; the two counters of the inner loop do not
    exist yet. *)
Definition task_start (stack : list byte) (g : globals) : task :=
  {| pc := OuterLoop; buf := stack; sock := 0;
     sourceAddr := {| sin6_family := 0; sin6_port := 0; sin6_addr := [] |};
     socklen := 0; no_msg_cnt := 0; is_stream_stop := false;
     env := g; trace := [] |}.

Definition udp_server_task (stack : list byte) (g : globals)
    (l : list answers) : task :=
  run l (task_start stack g).

End Server.

Arguments pid_data {ControllerState} g.
Arguments stream_enabled {ControllerState} g.
Arguments stream_stop {ControllerState} g.
Arguments pc {ControllerState} t.
Arguments buf {ControllerState} t.
Arguments sock {ControllerState} t.
Arguments sourceAddr {ControllerState} t.
Arguments socklen {ControllerState} t.
Arguments no_msg_cnt {ControllerState} t.
Arguments is_stream_stop {ControllerState} t.
Arguments env {ControllerState} t.
Arguments trace {ControllerState} t.
Arguments set_pc {ControllerState} l t.
Arguments set_buf {ControllerState} b t.
Arguments set_sock {ControllerState} fd t.
Arguments set_sourceAddr {ControllerState} a n t.
Arguments set_no_msg_cnt {ControllerState} n t.
Arguments set_is_stream_stop {ControllerState} f t.
Arguments set_env {ControllerState} g t.
Arguments emit {ControllerState} e t.
Arguments watchdog_check {ControllerState} t.
Arguments idle_branch {ControllerState} t.
Arguments leave_inner_loop {ControllerState} t.
Arguments handle_datagram {ControllerState} process_request t.
Arguments request_branch {ControllerState} process_request a t.
Arguments inner_iteration {ControllerState} process_request a t.
Arguments outer_iteration {ControllerState} a t.
Arguments step {ControllerState} process_request a t.
Arguments run {ControllerState} process_request l t.
Arguments task_start {ControllerState} stack g.
Arguments udp_server_task {ControllerState} process_request stack g l.

(** ** Reading a trace *)

(** The reply datagrams of a trace, each with its destination. *)
Fixpoint replies (tr : list event) : list (list byte * sockaddr_in6) :=
  match tr with
  | [] => []
  | EvSendTo _ payload dest _ :: tr' => (payload, dest) :: replies tr'
  | _ :: tr' => replies tr'
  end.

(** The buffers handed to [process_request]. *)
Fixpoint requests (tr : list event) : list (list byte) :=
  match tr with
  | [] => []
  | EvProcessRequest b :: tr' => b :: requests tr'
  | _ :: tr' => requests tr'
  end.

(** How many times [stream_stop] was called. *)
Fixpoint stream_stops (tr : list event) : nat :=
  match tr with
  | [] => O
  | EvStreamStop :: tr' => S (stream_stops tr')
  | _ :: tr' => stream_stops tr'
  end.

(** How many scheduling ticks ([vTaskDelay]) have passed. *)
Fixpoint ticks (tr : list event) : nat :=
  match tr with
  | [] => O
  | EvDelay _ :: tr' => S (ticks tr')
  | _ :: tr' => ticks tr'
  end.

(** An iteration of the inner loop that finds no data. *)
Definition idle (a : answers) : Prop := fionread a <= 0.

(** An iteration of the inner loop whose [recvfrom] delivers [data]
    from [src]. *)
Definition delivers (a : answers) (data : list byte) (src : sockaddr_in6)
    (srclen : Z) : Prop :=
  0 < fionread a /\ incoming a = RecvData data src srclen.

(** An iteration of the inner loop whose [recvfrom] fails. *)
Definition faults (a : answers) : Prop :=
  0 < fionread a /\ incoming a = RecvFail.

(** Whether a step from [t] with answers [a] receives a datagram. *)
Definition receives {ControllerState : Type} (a : answers)
    (t : task ControllerState) : bool :=
  match pc t, incoming a with
  | InnerLoop, RecvData _ _ _ => 0 <? fionread a
  | _, _ => false
  end.

(** The number of datagrams received along a run. *)
Fixpoint received {ControllerState : Type}
    (process_request : list byte -> globals ControllerState ->
                       list byte * globals ControllerState)
    (l : list answers) (t : task ControllerState) : nat :=
  match l with
  | [] => O
  | a :: l' =>
      (if receives a t then 1 else 0)%nat
      + received process_request l' (step process_request a t)
  end.

(** The buffer as [recvfrom] leaves it for a datagram [data]. *)
Definition received_into (b data : list byte) : list byte :=
  let n := Nat.min (length data) REQUEST_RESPONSE_BUF_SIZE in
  firstn n data ++ skipn n b.

(** [process_request] works on a [char] array in place: whatever it
    writes, the buffer keeps its size. *)
Definition in_place {ControllerState : Type}
    (process_request : list byte -> globals ControllerState ->
                       list byte * globals ControllerState) : Prop :=
  forall b g, length (fst (process_request b g)) = length b.

(** The two watchdog states of the specification, read off the task. *)
Inductive WatchdogState := ACTIVE | SUSPENDED.

Definition watchdog_state {ControllerState : Type}
    (t : task ControllerState) : WatchdogState :=
  if is_stream_stop t then SUSPENDED else ACTIVE.

(** * The PID engine

    [pid.h] and its implementation are not among the sources; the engine
    is modelled from section 4.2 of the specification.  The arithmetic is a
    parameter: [num] stands for the C [float], with whatever rounding its
    operations perform. *)

Module Pid.
Section Engine.

Variable num : Type.
Variable zero : num.
Variables add sub mul div : num -> num -> num.
Variables ltb leb : num -> num -> bool.
Variable is_finite : num -> bool.
Variables default_min default_max : num.

(** Modelled from the spec: the [{min, max}] pairs of section 3
    (the declarations of [pid.h] are missing). *)
Record limits := { lim_min : num; lim_max : num }.

(** Modelled from the spec: [ControllerState] of section 3 (the structure
    behind [p_pid_data], declared in the missing [pid.h]). *)
Record ControllerState := {
  setpoint : num;
  kp : num;
  ki : num;
  kd : num;
  integral_accumulator : num;
  previous_error : num;
  integral_limits : limits;
  output_limits : limits;
  last_output : num;
  last_measurement : num
}.

(** Modelled from the spec: the invalid-configuration error of sections 4.2
    and 7, reported to the caller instead of a new state. *)
Inductive outcome (A : Type) :=
| Done (a : A)
| InvalidConfiguration.
Arguments Done {A} a.
Arguments InvalidConfiguration {A}.

(** Modelled from the spec: "clamp to [integral_limits]" and
    "[clamp(raw_output, output_limits)]" of [step] (missing [pid.c]). *)
Definition clamp (x : num) (l : limits) : num :=
  if ltb x (lim_min l) then lim_min l
  else if ltb (lim_max l) x then lim_max l
  else x.

(** Modelled from the spec: [init], "all numeric fields zeroed except
    limits, which default to a safe wide-open range" ([PID_Init] is
    missing). *)
Definition init : ControllerState :=
  {| setpoint := zero; kp := zero; ki := zero; kd := zero;
     integral_accumulator := zero; previous_error := zero;
     integral_limits := {| lim_min := default_min; lim_max := default_max |};
     output_limits := {| lim_min := default_min; lim_max := default_max |};
     last_output := zero; last_measurement := zero |}.

(** Modelled from the spec: [set_gains], which rejects non-finite values
    (missing [pid.c]). *)
Definition set_gains (p i d : num) (s : ControllerState)
  : outcome ControllerState :=
  if is_finite p && is_finite i && is_finite d
  then Done {| setpoint := setpoint s; kp := p; ki := i; kd := d;
               integral_accumulator := integral_accumulator s;
               previous_error := previous_error s;
               integral_limits := integral_limits s;
               output_limits := output_limits s;
               last_output := last_output s;
               last_measurement := last_measurement s |}
  else InvalidConfiguration.

(** Modelled from the spec: [set_setpoint] (missing [pid.c]). *)
Definition set_setpoint (v : num) (s : ControllerState)
  : outcome ControllerState :=
  Done {| setpoint := v; kp := kp s; ki := ki s; kd := kd s;
          integral_accumulator := integral_accumulator s;
          previous_error := previous_error s;
          integral_limits := integral_limits s;
          output_limits := output_limits s;
          last_output := last_output s;
          last_measurement := last_measurement s |}.

(** Modelled from the spec: [set_output_limits], which "validates
    [min <= max]" and otherwise leaves the state unchanged
    (missing [pid.c]). *)
Definition set_output_limits (lo hi : num) (s : ControllerState)
  : outcome ControllerState :=
  if leb lo hi
  then Done {| setpoint := setpoint s; kp := kp s; ki := ki s; kd := kd s;
               integral_accumulator := integral_accumulator s;
               previous_error := previous_error s;
               integral_limits := integral_limits s;
               output_limits := {| lim_min := lo; lim_max := hi |};
               last_output := last_output s;
               last_measurement := last_measurement s |}
  else InvalidConfiguration.

(** Modelled from the spec: [set_integral_limits], which "validates
    [min <= max]" and otherwise leaves the state unchanged
    (missing [pid.c]). *)
Definition set_integral_limits (lo hi : num) (s : ControllerState)
  : outcome ControllerState :=
  if leb lo hi
  then Done {| setpoint := setpoint s; kp := kp s; ki := ki s; kd := kd s;
               integral_accumulator := integral_accumulator s;
               previous_error := previous_error s;
               integral_limits := {| lim_min := lo; lim_max := hi |};
               output_limits := output_limits s;
               last_output := last_output s;
               last_measurement := last_measurement s |}
  else InvalidConfiguration.

(** Modelled from the spec: [step(measurement, dt) -> output] of section
    4.2, statement by statement; a non-positive [dt] is an error
    (missing [pid.c]). *)
Definition step (measurement dt : num) (s : ControllerState)
  : outcome (ControllerState * num) :=
  if ltb zero dt then
    let error := sub (setpoint s) measurement in
    let acc := clamp (add (integral_accumulator s) (mul error dt))
                 (integral_limits s) in
    let derivative := div (sub error (previous_error s)) dt in
    let raw_output :=
      add (add (mul (kp s) error) (mul (ki s) acc)) (mul (kd s) derivative) in
    let output := clamp raw_output (output_limits s) in
    Done ({| setpoint := setpoint s; kp := kp s; ki := ki s; kd := kd s;
             integral_accumulator := acc;
             previous_error := error;
             integral_limits := integral_limits s;
             output_limits := output_limits s;
             last_output := output;
             last_measurement := measurement |}, output)
  else InvalidConfiguration.

(** Modelled from the spec: the operations of section 4.2 as calls, so
    that sequences of them can be run (missing [pid.c]). *)
Inductive call :=
| SetGains (p i d : num)
| SetSetpoint (v : num)
| SetOutputLimits (lo hi : num)
| SetIntegralLimits (lo hi : num)
| Step (measurement dt : num).

(** Modelled from the spec: one call; on an error "prior state retained"
    (section 7). *)
Definition perform (c : call) (s : ControllerState) : ControllerState :=
  match c with
  | SetGains p i d =>
      match set_gains p i d s with Done s' => s' | InvalidConfiguration => s end
  | SetSetpoint v =>
      match set_setpoint v s with Done s' => s' | InvalidConfiguration => s end
  | SetOutputLimits lo hi =>
      match set_output_limits lo hi s with
      | Done s' => s' | InvalidConfiguration => s end
  | SetIntegralLimits lo hi =>
      match set_integral_limits lo hi s with
      | Done s' => s' | InvalidConfiguration => s end
  | Step m dt =>
      match step m dt s with Done (s', _) => s' | InvalidConfiguration => s end
  end.

(** Modelled from the spec: a sequence of [step] calls, each given as its
    measurement and its [dt]. *)
Fixpoint steps (l : list (num * num)) (s : ControllerState)
  : ControllerState :=
  match l with
  | [] => s
  | (m, dt) :: l' => steps l' (perform (Step m dt) s)
  end.

(** Modelled from the spec: a sequence of arbitrary calls. *)
Fixpoint performs (l : list call) (s : ControllerState) : ControllerState :=
  match l with
  | [] => s
  | c :: l' => performs l' (perform c s)
  end.

(** Modelled from the spec: "[integral_accumulator] always within
    [integral_limits]" (invariant of section 3), as a test. *)
Definition within (x : num) (l : limits) : bool :=
  leb (lim_min l) x && leb x (lim_max l).

(** Modelled from the spec: the limits a setter accepts, [min <= max]. *)
Definition ordered (l : limits) : bool := leb (lim_min l) (lim_max l).

(** Modelled from the spec: the sum [integral_accumulator + error * dt]
    that [step] clamps (missing [pid.c]). *)
Definition accumulated (measurement dt : num) (s : ControllerState) : num :=
  add (integral_accumulator s) (mul (sub (setpoint s) measurement) dt).

(** Modelled from the spec: a value that compares with itself; for the C
    [float] this is every value but NaN. *)
Definition number (x : num) : bool := leb x x.

(** Modelled from the spec: along a sequence of [step] calls, every sum
    that a successful [step] clamps is a number. *)
Fixpoint numbers (l : list (num * num)) (s : ControllerState) : bool :=
  match l with
  | [] => true
  | (m, dt) :: l' =>
      (negb (ltb zero dt) || number (accumulated m dt s))
      && numbers l' (perform (Step m dt) s)
  end.

End Engine.

Arguments Done {A} a.
Arguments InvalidConfiguration {A}.
Arguments lim_min {num} l.
Arguments lim_max {num} l.
Arguments setpoint {num} c.
Arguments kp {num} c.
Arguments ki {num} c.
Arguments kd {num} c.
Arguments integral_accumulator {num} c.
Arguments previous_error {num} c.
Arguments integral_limits {num} c.
Arguments output_limits {num} c.
Arguments last_output {num} c.
Arguments last_measurement {num} c.
Arguments SetGains {num} p i d.
Arguments SetSetpoint {num} v.
Arguments SetOutputLimits {num} lo hi.
Arguments SetIntegralLimits {num} lo hi.
Arguments Step {num} measurement dt.
Arguments clamp {num} ltb x l.
Arguments step {num} zero add sub mul div ltb measurement dt s.
Arguments perform {num} zero add sub mul div ltb leb is_finite c s.
Arguments steps {num} zero add sub mul div ltb leb is_finite l s.
Arguments performs {num} zero add sub mul div ltb leb is_finite l s.
Arguments within {num} leb x l.
Arguments ordered {num} leb l.
Arguments accumulated {num} add sub mul measurement dt s.
Arguments number {num} leb x.
Arguments numbers {num} zero add sub mul div ltb leb is_finite l s.

End Pid.

(** Whether a step from [t] with answers [a] is an iteration of the inner
    loop that finds no data. *)
Definition idles {ControllerState : Type} (a : answers)
    (t : task ControllerState) : bool :=
  match pc t with
  | InnerLoop => fionread a <=? 0
  | _ => false
  end.

(** The number of iterations without data along a run. *)
Fixpoint idle_iterations {ControllerState : Type}
    (process_request : list byte -> globals ControllerState ->
                       list byte * globals ControllerState)
    (l : list answers) (t : task ControllerState) : nat :=
  match l with
  | [] => O
  | a :: l' =>
      (if idles a t then 1 else 0)%nat
      + idle_iterations process_request l' (step process_request a t)
  end.

(** * The Wi-Fi event handler

    [event_handler] (lines 46-77) and the wait of [app_main] for an address
    (lines 238-240).  The FreeRTOS event group is a word of flags; the
    calls into the Wi-Fi driver are recorded in program order. *)

Definition BIT0 : Z := 1.
Definition BIT1 : Z := 2.

(** Lines 41-42. *)
Definition IPV4_GOTIP_BIT : Z := BIT0.
Definition IPV6_GOTIP_BIT : Z := BIT1.

Definition ESP_OK : Z := 0.

(** The events [event_handler] has a case for; every other value of
    [event->event_id] takes the [default] branch. *)
Inductive system_event_id :=
| SYSTEM_EVENT_STA_START
| SYSTEM_EVENT_STA_CONNECTED
| SYSTEM_EVENT_STA_GOT_IP
| SYSTEM_EVENT_STA_DISCONNECTED
| SYSTEM_EVENT_AP_STA_GOT_IP6
| SYSTEM_EVENT_OTHER (id : Z).

(** The driver calls the handler makes. *)
Inductive wifi_call :=
| esp_wifi_connect
| tcpip_adapter_create_ip6_linklocal.

(** [xEventGroupSetBits] and [xEventGroupClearBits] on the flags. *)
Definition xEventGroupSetBits (group bits : Z) : Z := Z.lor group bits.
Definition xEventGroupClearBits (group bits : Z) : Z := Z.ldiff group bits.

(** The state the handler works on: [wifi_event_group] (line 39) and the
    driver calls made so far. *)
Record wifi := {
  wifi_event_group : Z;
  wifi_calls : list wifi_call
}.

(** Lines 46-77.  The logging calls are left out; the case of
    [SYSTEM_EVENT_AP_STA_GOT_IP6] has no [break] and falls into
    [default], which does nothing. *)
Definition event_handler (event_id : system_event_id) (w : wifi)
  : Z * wifi :=
  let w' :=
    match event_id with
    | SYSTEM_EVENT_STA_START =>
        {| wifi_event_group := wifi_event_group w;
           wifi_calls := wifi_calls w ++ [esp_wifi_connect] |}
    | SYSTEM_EVENT_STA_CONNECTED =>
        {| wifi_event_group := wifi_event_group w;
           wifi_calls :=
             wifi_calls w ++ [tcpip_adapter_create_ip6_linklocal] |}
    | SYSTEM_EVENT_STA_GOT_IP =>
        {| wifi_event_group :=
             xEventGroupSetBits (wifi_event_group w) IPV4_GOTIP_BIT;
           wifi_calls := wifi_calls w |}
    | SYSTEM_EVENT_STA_DISCONNECTED =>
        {| wifi_event_group :=
             xEventGroupClearBits
               (xEventGroupClearBits (wifi_event_group w) IPV4_GOTIP_BIT)
               IPV6_GOTIP_BIT;
           wifi_calls := wifi_calls w ++ [esp_wifi_connect] |}
    | SYSTEM_EVENT_AP_STA_GOT_IP6 =>
        {| wifi_event_group :=
             xEventGroupSetBits (wifi_event_group w) IPV6_GOTIP_BIT;
           wifi_calls := wifi_calls w |}
    | SYSTEM_EVENT_OTHER _ => w
    end in
  (ESP_OK, w').

(** The handler called for a sequence of events, as the event loop does. *)
Fixpoint handle_events (l : list system_event_id) (w : wifi) : wifi :=
  match l with
  | [] => w
  | e :: l' => handle_events l' (snd (event_handler e w))
  end.

(** The condition [xEventGroupWaitBits(group, bits, clear, all, ticks)]
    waits for: all of [bits] when [all] is set, any of them otherwise. *)
Definition wait_bits_satisfied (group bits : Z) (wait_for_all : bool)
  : bool :=
  if wait_for_all then Z.land group bits =? bits
  else negb (Z.land group bits =? 0).

(** Lines 238-240: what [app_main] waits for before it goes on to create
    the tasks. *)
Definition app_main_wait_satisfied (w : wifi) : bool :=
  wait_bits_satisfied (wifi_event_group w)
    (Z.lor IPV4_GOTIP_BIT IPV6_GOTIP_BIT) true.

(** The group as [xEventGroupCreate] returns it (line 218). *)
Definition wifi_start : wifi :=
  {| wifi_event_group := 0; wifi_calls := [] |}.

(** Whether an event sets, clears or leaves a flag of the group. *)
Definition is_got_ip (e : system_event_id) : bool :=
  match e with SYSTEM_EVENT_STA_GOT_IP => true | _ => false end.

Definition is_got_ip6 (e : system_event_id) : bool :=
  match e with SYSTEM_EVENT_AP_STA_GOT_IP6 => true | _ => false end.

Definition is_disconnected (e : system_event_id) : bool :=
  match e with SYSTEM_EVENT_STA_DISCONNECTED => true | _ => false end.

Definition asks_to_connect (e : system_event_id) : bool :=
  match e with
  | SYSTEM_EVENT_STA_START | SYSTEM_EVENT_STA_DISCONNECTED => true
  | _ => false
  end.

(** How often the handler asked the driver to connect. *)
Fixpoint connect_calls (l : list wifi_call) : nat :=
  match l with
  | [] => O
  | esp_wifi_connect :: l' => S (connect_calls l')
  | _ :: l' => connect_calls l'
  end.

(** * Concrete inputs

    A stand-in for the missing [process_request], used only to run the loop
    on concrete inputs: it leaves the buffer as received (an echo) and
    touches no global. *)
Definition echo_request (b : list byte) (g : globals unit)
  : list byte * globals unit := (b, g).

Definition client : sockaddr_in6 :=
  {| sin6_family := 10; sin6_port := 50000; sin6_addr := [x01] |}.

(** No data pending. *)
Definition no_data : answers :=
  {| socket_ret := 3; bind_ret := 0; fionread := 0; incoming := RecvFail |}.

(** A datagram [data] from [client] is pending. *)
Definition datagram (data : list byte) : answers :=
  {| socket_ret := 3; bind_ret := 0; fionread := Z.of_nat (length data);
     incoming := RecvData data client sizeof_sockaddr_in6 |}.

(** Data is announced but [recvfrom] fails. *)
Definition broken : answers :=
  {| socket_ret := 3; bind_ret := 0; fionread := 9; incoming := RecvFail |}.

Definition globals0 : globals unit :=
  {| pid_data := tt; stream_enabled := true |}.

(** A stack that held other data where [buf] is placed. *)
Definition dirty_stack : list byte :=
  [xaa; xaa; xaa; xaa; xaa; xaa; xaa; xaa; xaa].

(** A stack that happened to hold zeros where [buf] is placed. *)
Definition zero_stack : list byte := repeat x00 REQUEST_RESPONSE_BUF_SIZE.

(** [socket] and [bind] succeed. *)
Definition opened : answers :=
  {| socket_ret := 3; bind_ret := 0; fionread := 0; incoming := RecvFail |}.

(** A datagram shorter than a frame. *)
Definition short_data : list byte := [x01; x02; x03].

(** A datagram of the frame size: one opcode byte and two 4-byte values. *)
Definition frame_data : list byte :=
  [x01; x00; x00; x80; x3f; x00; x00; x00; x00].

(** The task as it enters the inner loop for the first time. *)
Definition entered : task unit :=
  step echo_request opened (task_start zero_stack globals0).

(** The task after 751 iterations without data: 750 idle ticks up to the
    threshold, and one more iteration. *)
Definition silent_run : task unit :=
  run echo_request (repeat no_data 751) entered.

(** The C [float] of the target: IEEE 754 binary32, with 24 bits of
    precision and exponents below 128, as [SpecFloat] computes it. *)
Definition float32_prec : Z := 24.
Definition float32_emax : Z := 128.

Definition float32_of_Z (z : Z) : SpecFloat.spec_float :=
  SpecFloat.binary_normalize float32_prec float32_emax z 0 false.

Definition float32_is_finite (x : SpecFloat.spec_float) : bool :=
  match x with
  | SpecFloat.S754_zero _ | SpecFloat.S754_finite _ _ _ => true
  | _ => false
  end.

(** The PID engine on binary32 numbers. *)
Definition float32_step :=
  Pid.step (float32_of_Z 0)
    (SpecFloat.SFadd float32_prec float32_emax)
    (SpecFloat.SFsub float32_prec float32_emax)
    (SpecFloat.SFmul float32_prec float32_emax)
    (SpecFloat.SFdiv float32_prec float32_emax)
    SpecFloat.SFltb.

Definition float32_steps :=
  Pid.steps (float32_of_Z 0)
    (SpecFloat.SFadd float32_prec float32_emax)
    (SpecFloat.SFsub float32_prec float32_emax)
    (SpecFloat.SFmul float32_prec float32_emax)
    (SpecFloat.SFdiv float32_prec float32_emax)
    SpecFloat.SFltb SpecFloat.SFleb float32_is_finite.

Definition float32_numbers :=
  Pid.numbers (float32_of_Z 0)
    (SpecFloat.SFadd float32_prec float32_emax)
    (SpecFloat.SFsub float32_prec float32_emax)
    (SpecFloat.SFmul float32_prec float32_emax)
    (SpecFloat.SFdiv float32_prec float32_emax)
    SpecFloat.SFltb SpecFloat.SFleb float32_is_finite.

(** A controller with setpoint 100, integral gain 1 and integral limits
    [-10, 10]. *)
Definition pid_sample : Pid.ControllerState SpecFloat.spec_float :=
  {| Pid.setpoint := float32_of_Z 100;
     Pid.kp := float32_of_Z 0;
     Pid.ki := float32_of_Z 1;
     Pid.kd := float32_of_Z 0;
     Pid.integral_accumulator := float32_of_Z 0;
     Pid.previous_error := float32_of_Z 0;
     Pid.integral_limits :=
       {| Pid.lim_min := float32_of_Z (-10);
          Pid.lim_max := float32_of_Z 10 |};
     Pid.output_limits :=
       {| Pid.lim_min := float32_of_Z (-1000);
          Pid.lim_max := float32_of_Z 1000 |};
     Pid.last_output := float32_of_Z 0;
     Pid.last_measurement := float32_of_Z 0 |}.

(** [socket] fails. *)
Definition socket_failed : answers :=
  {| socket_ret := -1; bind_ret := 0; fionread := 0; incoming := RecvFail |}.

(** [socket] succeeds and [bind] fails. *)
Definition bind_failed : answers :=
  {| socket_ret := 3; bind_ret := -1; fionread := 0; incoming := RecvFail |}.

(** A datagram longer than a frame. *)
Definition long_data : list byte :=
  [x02; x11; x12; x13; x14; x21; x22; x23; x24; xee; xee; xee].

(** * Properties of the request loop *)

Lemma no_msg_cnt_warn_eq : no_msg_cnt_warn = 750.
Proof. reflexivity. Qed.

Lemma REQUEST_RESPONSE_BUF_SIZE_eq : REQUEST_RESPONSE_BUF_SIZE = 9%nat.
Proof. reflexivity. Qed.

Lemma wrap_int_in_range (z : Z) :
  INT_MIN <= z <= INT_MAX -> wrap_int z = z.
Proof.
  unfold INT_MIN, INT_MAX, wrap_int. intros H.
  rewrite Z.mod_small by lia. lia.
Qed.

Lemma received_into_length (b data : list byte) :
  length b = REQUEST_RESPONSE_BUF_SIZE ->
  length (received_into b data) = REQUEST_RESPONSE_BUF_SIZE.
Proof.
  unfold received_into. intros Hb.
  rewrite length_app, length_firstn, length_skipn, Hb. lia.
Qed.

Lemma received_into_prefix (b data : list byte) :
  length b = REQUEST_RESPONSE_BUF_SIZE ->
  firstn (length data) (received_into b data)
  = firstn REQUEST_RESPONSE_BUF_SIZE data.
Proof.
  intros Hb. unfold received_into.
  destruct (Nat.le_ge_cases (length data) REQUEST_RESPONSE_BUF_SIZE) as [H | H].
  - rewrite Nat.min_l by exact H.
    rewrite firstn_all, (firstn_all2 data) by exact H.
    rewrite firstn_app, firstn_all, Nat.sub_diag, firstn_O.
    apply app_nil_r.
  - rewrite Nat.min_r by exact H.
    rewrite (skipn_all2 b) by lia. rewrite app_nil_r.
    apply firstn_all2. rewrite length_firstn. lia.
Qed.

Lemma skipn_repeat (c : byte) (n m : nat) :
  skipn n (repeat c m) = repeat c (m - n).
Proof.
  revert m. induction n as [|n IH]; intros m.
  - rewrite Nat.sub_0_r. reflexivity.
  - destruct m as [|m]; [reflexivity | apply IH].
Qed.

Lemma received_into_zeroed (data : list byte) :
  received_into (repeat x00 REQUEST_RESPONSE_BUF_SIZE) data
  = firstn (Nat.min (length data) REQUEST_RESPONSE_BUF_SIZE) data
    ++ repeat x00
         (REQUEST_RESPONSE_BUF_SIZE
          - Nat.min (length data) REQUEST_RESPONSE_BUF_SIZE).
Proof. unfold received_into. rewrite skipn_repeat. reflexivity. Qed.

Lemma memset_whole (b : list byte) (c : byte) (n : nat) :
  length b = n -> memset b c n = repeat c n.
Proof.
  intros Hb. unfold memset.
  rewrite skipn_all2 by lia. apply app_nil_r.
Qed.

Lemma sendto_payload_whole (b : list byte) (n : nat) :
  length b = n -> sendto_payload b n = b.
Proof. intros Hb. unfold sendto_payload. apply firstn_all2. lia. Qed.

Lemma replies_app (tr1 tr2 : list event) :
  replies (tr1 ++ tr2) = replies tr1 ++ replies tr2.
Proof.
  induction tr1 as [|e tr1 IH]; simpl; [reflexivity|].
  destruct e; simpl; rewrite ?IH; reflexivity.
Qed.

Lemma requests_app (tr1 tr2 : list event) :
  requests (tr1 ++ tr2) = requests tr1 ++ requests tr2.
Proof.
  induction tr1 as [|e tr1 IH]; simpl; [reflexivity|].
  destruct e; simpl; rewrite ?IH; reflexivity.
Qed.

Lemma stream_stops_app (tr1 tr2 : list event) :
  stream_stops (tr1 ++ tr2) = (stream_stops tr1 + stream_stops tr2)%nat.
Proof.
  induction tr1 as [|e tr1 IH]; simpl; [reflexivity|].
  destruct e; simpl; rewrite ?IH; reflexivity.
Qed.

Lemma ticks_app (tr1 tr2 : list event) :
  ticks (tr1 ++ tr2) = (ticks tr1 + ticks tr2)%nat.
Proof.
  induction tr1 as [|e tr1 IH]; simpl; [reflexivity|].
  destruct e; simpl; rewrite ?IH; reflexivity.
Qed.

Section ServerProofs.

Variable ControllerState : Type.
Variable process_request :
  list byte -> globals ControllerState -> list byte * globals ControllerState.

Local Abbreviation task := (task ControllerState).

(** ** The suspension check *)

Lemma watchdog_check_fires (t : task) :
  no_msg_cnt_warn <= no_msg_cnt t -> is_stream_stop t = false ->
  watchdog_check t =
  set_is_stream_stop true (set_env (stream_stop (env t)) (emit EvStreamStop t)).
Proof.
  intros Hc Hs. unfold watchdog_check.
  rewrite Hs. replace (no_msg_cnt_warn <=? no_msg_cnt t) with true
    by (symmetry; apply Z.leb_le; exact Hc).
  reflexivity.
Qed.

Lemma watchdog_check_quiet (t : task) :
  no_msg_cnt t < no_msg_cnt_warn \/ is_stream_stop t = true ->
  watchdog_check t = t.
Proof.
  intros [Hc | Hs]; unfold watchdog_check.
  - replace (no_msg_cnt_warn <=? no_msg_cnt t) with false
      by (symmetry; apply Z.leb_gt; exact Hc).
    reflexivity.
  - rewrite Hs, andb_false_r. reflexivity.
Qed.

(** What the check leaves alone. *)
Lemma watchdog_check_frame (t : task) :
  pc (watchdog_check t) = pc t /\
  buf (watchdog_check t) = buf t /\
  sock (watchdog_check t) = sock t /\
  sourceAddr (watchdog_check t) = sourceAddr t /\
  socklen (watchdog_check t) = socklen t /\
  no_msg_cnt (watchdog_check t) = no_msg_cnt t /\
  pid_data (env (watchdog_check t)) = pid_data (env t).
Proof.
  unfold watchdog_check.
  destruct ((no_msg_cnt_warn <=? no_msg_cnt t) && negb (is_stream_stop t));
    simpl; repeat split; reflexivity.
Qed.

(** After the check, a counter at the threshold means a stopped stream. *)
Lemma watchdog_check_post (t : task) :
  is_stream_stop (watchdog_check t) = false ->
  no_msg_cnt t < no_msg_cnt_warn /\ is_stream_stop t = false /\
  watchdog_check t = t.
Proof.
  unfold watchdog_check.
  destruct (no_msg_cnt_warn <=? no_msg_cnt t) eqn:Hc;
    destruct (is_stream_stop t) eqn:Hs; simpl; intros H;
    try discriminate; rewrite ?Hs in *; try discriminate.
  - apply Z.leb_gt in Hc. auto.
Qed.

(** ** The three ways through one iteration of the inner loop *)

Lemma inner_iteration_idle (a : answers) (t : task) :
  idle a ->
  inner_iteration process_request a t =
  idle_branch (emit (EvIoctl (sock t) (fionread a)) (watchdog_check t)).
Proof.
  unfold idle, inner_iteration. intros Ha.
  replace (0 <? fionread a) with false by (symmetry; apply Z.ltb_ge; exact Ha).
  destruct (watchdog_check_frame t) as (_ & _ & Hsock & _). rewrite Hsock.
  reflexivity.
Qed.

Lemma inner_iteration_faults (a : answers) (t : task) :
  faults a ->
  inner_iteration process_request a t =
  leave_inner_loop
    (emit (EvRecvFrom (sock t) (-1))
       (set_sourceAddr (sourceAddr t) sizeof_sockaddr_in6
          (emit (EvIoctl (sock t) (fionread a)) (watchdog_check t)))).
Proof.
  unfold faults, inner_iteration. intros [Ha Hr].
  replace (0 <? fionread a) with true by (symmetry; apply Z.ltb_lt; exact Ha).
  destruct (watchdog_check_frame t) as (_ & _ & Hsock & Hsrc & _).
  rewrite Hsock.
  unfold request_branch. rewrite Hr. cbn [recvfrom].
  replace (-1 <? 0) with true by reflexivity.
  cbn [emit buf sock sourceAddr]. rewrite Hsock, Hsrc.
  generalize (watchdog_check t). intros w. destruct w. reflexivity.
Qed.

Lemma inner_iteration_delivers (a : answers) (t : task)
    (data : list byte) (src : sockaddr_in6) (srclen : Z) :
  delivers a data src srclen ->
  inner_iteration process_request a t =
  handle_datagram process_request
    (emit (EvRecvFrom (sock t)
             (Z.of_nat (Nat.min (length data) REQUEST_RESPONSE_BUF_SIZE)))
       (set_sourceAddr src srclen
          (set_buf (received_into (buf t) data)
             (emit (EvIoctl (sock t) (fionread a)) (watchdog_check t))))).
Proof.
  unfold delivers, inner_iteration. intros [Ha Hr].
  replace (0 <? fionread a) with true by (symmetry; apply Z.ltb_lt; exact Ha).
  destruct (watchdog_check_frame t) as (_ & Hbuf & Hsock & _).
  rewrite Hsock. unfold request_branch. rewrite Hr.
  cbn [recvfrom]. cbn [emit buf sock]. rewrite Hbuf.
  replace (Z.of_nat (Nat.min (length data) REQUEST_RESPONSE_BUF_SIZE) <? 0)
    with false by (symmetry; apply Z.ltb_ge; lia).
  rewrite Hsock. reflexivity.
Qed.

Lemma watchdog_check_trace (t : task) :
  trace (watchdog_check t) = trace t \/
  trace (watchdog_check t) = trace t ++ [EvStreamStop].
Proof.
  unfold watchdog_check.
  destruct ((no_msg_cnt_warn <=? no_msg_cnt t) && negb (is_stream_stop t));
    simpl; auto.
Qed.

Lemma watchdog_check_replies (t : task) :
  replies (trace (watchdog_check t)) = replies (trace t).
Proof.
  destruct (watchdog_check_trace t) as [H | H]; rewrite H;
    [reflexivity | rewrite replies_app; apply app_nil_r].
Qed.

Lemma watchdog_check_requests (t : task) :
  requests (trace (watchdog_check t)) = requests (trace t).
Proof.
  destruct (watchdog_check_trace t) as [H | H]; rewrite H;
    [reflexivity | rewrite requests_app; apply app_nil_r].
Qed.

(** The whole effect of handling a datagram that sits in the buffer. *)
Lemma handle_datagram_fields (u : task) :
  let result := process_request (buf u) (env u) in
  let t' := handle_datagram process_request u in
  pc t' = pc u /\
  buf t' = memset (fst result) x00 REQUEST_RESPONSE_BUF_SIZE /\
  sock t' = sock u /\
  sourceAddr t' = sourceAddr u /\
  socklen t' = socklen u /\
  no_msg_cnt t' = 0 /\
  is_stream_stop t' = false /\
  env t' = snd result /\
  trace t' =
    trace u ++
    [EvProcessRequest (buf u);
     EvSendTo (sock u) (sendto_payload (fst result) REQUEST_RESPONSE_BUF_SIZE)
       (sourceAddr u) (socklen u)].
Proof.
  cbv zeta. unfold handle_datagram.
  destruct (process_request (buf u) (env u)) as [response g].
  cbn [emit set_env set_buf set_no_msg_cnt set_is_stream_stop
       pc buf sock sourceAddr socklen no_msg_cnt is_stream_stop env trace
       fst snd].
  rewrite <- app_assoc. repeat split; reflexivity.
Qed.

(** The whole effect of an iteration that receives a datagram. *)
Lemma inner_iteration_delivers_fields (a : answers) (t : task)
    (data : list byte) (src : sockaddr_in6) (srclen : Z) :
  delivers a data src srclen ->
  let w := watchdog_check t in
  let request := received_into (buf t) data in
  let result := process_request request (env w) in
  let t' := inner_iteration process_request a t in
  pc t' = pc t /\
  buf t' = memset (fst result) x00 REQUEST_RESPONSE_BUF_SIZE /\
  sock t' = sock t /\
  sourceAddr t' = src /\
  socklen t' = srclen /\
  no_msg_cnt t' = 0 /\
  is_stream_stop t' = false /\
  env t' = snd result /\
  trace t' =
    trace w ++
    [EvIoctl (sock t) (fionread a);
     EvRecvFrom (sock t)
       (Z.of_nat (Nat.min (length data) REQUEST_RESPONSE_BUF_SIZE));
     EvProcessRequest request;
     EvSendTo (sock t) (sendto_payload (fst result) REQUEST_RESPONSE_BUF_SIZE)
       src srclen].
Proof.
  intros Ha. cbv zeta.
  rewrite (inner_iteration_delivers a t data src srclen Ha).
  destruct (watchdog_check_frame t) as (Hpc & _ & Hsock & _).
  match goal with
  | |- context [handle_datagram process_request ?u] =>
      destruct (handle_datagram_fields u)
        as (H1 & H2 & H3 & H4 & H5 & H6 & H7 & H8 & H9);
      rewrite H1, H2, H3, H4, H5, H6, H7, H8, H9
  end.
  cbn [emit set_sourceAddr set_buf
       pc buf sock sourceAddr socklen no_msg_cnt is_stream_stop env trace].
  rewrite Hpc, Hsock, <- !app_assoc.
  repeat split; reflexivity.
Qed.

Lemma step_inner (a : answers) (t : task) :
  pc t = InnerLoop ->
  step process_request a t = inner_iteration process_request a t.
Proof. intros Hpc. unfold step. rewrite Hpc. reflexivity. Qed.

Lemma step_outer (a : answers) (t : task) :
  pc t = OuterLoop -> step process_request a t = outer_iteration a t.
Proof. intros Hpc. unfold step. rewrite Hpc. reflexivity. Qed.

(** The whole effect of an iteration that finds no data. *)
Lemma inner_iteration_idle_fields (a : answers) (t : task) :
  idle a ->
  let w := watchdog_check t in
  let t' := inner_iteration process_request a t in
  pc t' = pc t /\
  buf t' = buf t /\
  sock t' = sock t /\
  no_msg_cnt t' =
    (if is_stream_stop w then no_msg_cnt t
     else wrap_int (no_msg_cnt t + 1)) /\
  is_stream_stop t' = is_stream_stop w /\
  env t' = env w /\
  trace t' =
    trace w ++
    [EvIoctl (sock t) (fionread a); EvDelay SERVER_TASK_SLEEP_TIME_MS].
Proof.
  intros Ha. cbv zeta. rewrite (inner_iteration_idle a t Ha).
  destruct (watchdog_check_frame t) as (Hpc & Hbuf & Hsock & _ & _ & Hcnt & _).
  unfold idle_branch. cbn [emit is_stream_stop no_msg_cnt].
  destruct (is_stream_stop (watchdog_check t)) eqn:Hs;
    cbn; rewrite ?Hs, Hpc, Hbuf, Hsock, ?Hcnt, <- !app_assoc; cbn;
    repeat split; reflexivity.
Qed.

(** The whole effect of an iteration whose [recvfrom] fails. *)
Lemma inner_iteration_faults_fields (a : answers) (t : task) :
  faults a ->
  let w := watchdog_check t in
  let t' := inner_iteration process_request a t in
  pc t' = OuterLoop /\
  buf t' = buf t /\
  sock t' = sock t /\
  env t' = env w /\
  trace t' =
    trace w ++
    [EvIoctl (sock t) (fionread a); EvRecvFrom (sock t) (-1)] ++
    (if sock t =? -1 then [] else [EvShutdown (sock t); EvClose (sock t)]).
Proof.
  intros Ha. cbv zeta. rewrite (inner_iteration_faults a t Ha).
  destruct (watchdog_check_frame t) as (_ & Hbuf & Hsock & _).
  unfold leave_inner_loop. cbn [emit set_sourceAddr sock]. rewrite Hsock.
  destruct (sock t =? -1); cbn; rewrite Hbuf, ?Hsock, <- !app_assoc; cbn;
    repeat split; reflexivity.
Qed.

(** The whole effect of the head of the outer loop. *)
Lemma outer_iteration_fields (a : answers) (t : task) :
  let t' := outer_iteration a t in
  buf t' = buf t /\
  sock t' = socket_ret a /\
  env t' = env t /\
  (socket_ret a < 0 ->
   pc t' = TaskDeleted /\
   trace t' = trace t ++ [EvSocket (socket_ret a); EvTaskDelete]) /\
  (0 <= socket_ret a ->
   pc t' = InnerLoop /\ no_msg_cnt t' = 0 /\ is_stream_stop t' = false /\
   trace t' =
     trace t ++
     [EvSocket (socket_ret a); EvBind (socket_ret a) (bind_ret a)]).
Proof.
  cbv zeta. unfold outer_iteration. cbn [emit set_sock sock].
  destruct (Z.ltb_spec (socket_ret a) 0) as [H | H]; cbn;
    rewrite <- !app_assoc; cbn; repeat split; intros; try reflexivity; lia.
Qed.

Hypothesis process_request_in_place : in_place process_request.

(** The buffer keeps its size along every run. *)
Lemma step_buf_length (a : answers) (t : task) :
  length (buf t) = REQUEST_RESPONSE_BUF_SIZE ->
  length (buf (step process_request a t)) = REQUEST_RESPONSE_BUF_SIZE.
Proof.
  intros Hb. unfold step. destruct (pc t) eqn:Hpc.
  - unfold outer_iteration. cbn [emit set_sock sock].
    destruct (socket_ret a <? 0); cbn; exact Hb.
  - destruct (Z.ltb_spec 0 (fionread a)) as [Hd | Hd].
    + destruct (incoming a) as [|data src srclen] eqn:Hr.
      * rewrite (inner_iteration_faults a t (conj Hd Hr)).
        destruct (watchdog_check_frame t) as (_ & Hbuf & _).
        unfold leave_inner_loop. cbn [emit set_sourceAddr sock].
        destruct (sock (watchdog_check t) =? -1); cbn; rewrite Hbuf;
          exact Hb.
      * destruct (inner_iteration_delivers_fields a t data src srclen
                    (conj Hd Hr)) as (_ & Hbuf & _).
        rewrite Hbuf, memset_whole; [apply repeat_length|].
        rewrite process_request_in_place. apply received_into_length, Hb.
    + rewrite (inner_iteration_idle a t Hd).
      destruct (watchdog_check_frame t) as (_ & Hbuf & _).
      unfold idle_branch. cbn [emit is_stream_stop].
      destruct (is_stream_stop (watchdog_check t)); cbn; rewrite Hbuf;
        exact Hb.
  - exact Hb.
Qed.

Lemma run_buf_length (l : list answers) (t : task) :
  length (buf t) = REQUEST_RESPONSE_BUF_SIZE ->
  length (buf (run process_request l t)) = REQUEST_RESPONSE_BUF_SIZE.
Proof.
  revert t.
  induction l as [|a l IH]; intros t Hb; [exact Hb|].
  cbn [run]. apply IH, step_buf_length; assumption.
Qed.

(** ** Frames of any length *)

(** C1 (as amended).  The loop has no length check: a received datagram of
    any length, also one shorter or longer than the 9-byte frame, is copied
    into the buffer (at most 9 bytes of it), handed to [process_request],
    and answered with exactly one reply of 9 bytes to its sender; the
    globals afterwards are the ones [process_request] leaves. *)
Theorem datagram_of_any_length_is_answered (a : answers) (t : task)
    (data : list byte) (src : sockaddr_in6) (srclen : Z) :
  pc t = InnerLoop ->
  length (buf t) = REQUEST_RESPONSE_BUF_SIZE ->
  delivers a data src srclen ->
  let request := received_into (buf t) data in
  let result := process_request request (env (watchdog_check t)) in
  let t' := step process_request a t in
  firstn (length data) request = firstn REQUEST_RESPONSE_BUF_SIZE data /\
  requests (trace t') = requests (trace t) ++ [request] /\
  replies (trace t') = replies (trace t) ++ [(fst result, src)] /\
  length (fst result) = REQUEST_RESPONSE_BUF_SIZE /\
  env t' = snd result.
Proof.
  intros Hpc Hb Ha. cbv zeta. unfold step. rewrite Hpc.
  destruct (inner_iteration_delivers_fields a t data src srclen Ha)
    as (_ & _ & _ & _ & _ & _ & _ & Henv & Htr).
  assert (Hlen : length (fst (process_request (received_into (buf t) data)
                                (env (watchdog_check t))))
                 = REQUEST_RESPONSE_BUF_SIZE).
  { rewrite process_request_in_place. apply received_into_length, Hb. }
  rewrite Htr, requests_app, replies_app, watchdog_check_requests,
    watchdog_check_replies, sendto_payload_whole by exact Hlen.
  repeat split; try assumption; try reflexivity.
  apply received_into_prefix, Hb.
Qed.

(** A step that receives no datagram sends no reply. *)
Lemma step_without_datagram (a : answers) (t : task) :
  receives a t = false ->
  replies (trace (step process_request a t)) = replies (trace t) /\
  requests (trace (step process_request a t)) = requests (trace t).
Proof.
  unfold receives, step. destruct (pc t) eqn:Hpc.
  - intros _.
    destruct (outer_iteration_fields a t) as (_ & _ & _ & Hneg & Hpos).
    destruct (Z.lt_ge_cases (socket_ret a) 0) as [H | H].
    + destruct (Hneg H) as [_ Htr]. rewrite Htr, replies_app, requests_app.
      cbn. rewrite !app_nil_r. split; reflexivity.
    + destruct (Hpos H) as (_ & _ & _ & Htr).
      rewrite Htr, replies_app, requests_app.
      cbn. rewrite !app_nil_r. split; reflexivity.
  - intros Hrecv. destruct (Z.ltb_spec 0 (fionread a)) as [Hd | Hd].
    + destruct (incoming a) as [|data src srclen] eqn:Hr; [|discriminate].
      destruct (inner_iteration_faults_fields a t (conj Hd Hr))
        as (_ & _ & _ & _ & Htr).
      rewrite Htr, !replies_app, !requests_app, watchdog_check_replies,
        watchdog_check_requests.
      destruct (sock t =? -1); cbn; rewrite !app_nil_r; split; reflexivity.
    + destruct (inner_iteration_idle_fields a t Hd)
        as (_ & _ & _ & _ & _ & _ & Htr).
      rewrite Htr, !replies_app, !requests_app, watchdog_check_replies,
        watchdog_check_requests.
      cbn; rewrite !app_nil_r; split; reflexivity.
  - intros _. split; reflexivity.
Qed.

(** A step that receives a datagram sends one reply. *)
Lemma step_with_datagram (a : answers) (t : task) :
  receives a t = true ->
  length (replies (trace (step process_request a t)))
  = S (length (replies (trace t))).
Proof.
  unfold receives, step. destruct (pc t) eqn:Hpc; try discriminate.
  destruct (incoming a) as [|data src srclen] eqn:Hr; try discriminate.
  intros Hd. apply Z.ltb_lt in Hd.
  destruct (inner_iteration_delivers_fields a t data src srclen (conj Hd Hr))
    as (_ & _ & _ & _ & _ & _ & _ & _ & Htr).
  rewrite Htr, replies_app, watchdog_check_replies, length_app. cbn. lia.
Qed.

(** ** One reply per datagram *)

(** C5.  A step of the task that receives a datagram sends exactly one
    reply, in that same step, to the source address [recvfrom] stored for
    that datagram; a step that receives none sends nothing; hence along any
    run there are exactly as many replies as received datagrams.  The
    request handed on is the buffer holding this one datagram: nothing is
    kept to be joined with a later one. *)
Theorem one_reply_per_datagram :
  (forall a t data src srclen,
      pc t = InnerLoop -> delivers a data src srclen ->
      let result :=
        process_request (received_into (buf t) data)
          (env (watchdog_check t)) in
      replies (trace (step process_request a t))
      = replies (trace t)
        ++ [(sendto_payload (fst result) REQUEST_RESPONSE_BUF_SIZE, src)] /\
      requests (trace (step process_request a t))
      = requests (trace t) ++ [received_into (buf t) data]) /\
  (forall a t,
      receives a t = false ->
      replies (trace (step process_request a t)) = replies (trace t) /\
      requests (trace (step process_request a t)) = requests (trace t)) /\
  (forall l t,
      length (replies (trace (run process_request l t)))
      = (length (replies (trace t)) + received process_request l t)%nat).
Proof.
  split; [|split].
  - intros a t data src srclen Hpc Ha. cbv zeta. unfold step. rewrite Hpc.
    destruct (inner_iteration_delivers_fields a t data src srclen Ha)
      as (_ & _ & _ & _ & _ & _ & _ & _ & Htr).
    rewrite Htr, replies_app, requests_app, watchdog_check_replies,
      watchdog_check_requests.
    split; reflexivity.
  - exact step_without_datagram.
  - induction l as [|a l IH]; intros t; cbn [run received]; [lia|].
    rewrite IH. destruct (receives a t) eqn:Hrecv.
    + rewrite (step_with_datagram a t Hrecv). lia.
    + destruct (step_without_datagram a t Hrecv) as [Hrep _].
      rewrite Hrep. lia.
Qed.

(** ** The size of a reply *)

Lemma step_replies_sized (a : answers) (t : task) :
  length (buf t) = REQUEST_RESPONSE_BUF_SIZE ->
  Forall (fun r => length (fst r) = REQUEST_RESPONSE_BUF_SIZE)
    (replies (trace t)) ->
  Forall (fun r => length (fst r) = REQUEST_RESPONSE_BUF_SIZE)
    (replies (trace (step process_request a t))).
Proof.
  intros Hb Hall. destruct (receives a t) eqn:Hrecv.
  - revert Hrecv. unfold receives, step.
    destruct (pc t) eqn:Hpc; try discriminate.
    destruct (incoming a) as [|data src srclen] eqn:Hr; try discriminate.
    intros Hd. apply Z.ltb_lt in Hd.
    destruct (inner_iteration_delivers_fields a t data src srclen
                (conj Hd Hr)) as (_ & _ & _ & _ & _ & _ & _ & _ & Htr).
    rewrite Htr, replies_app, watchdog_check_replies.
    apply Forall_app. split; [exact Hall|].
    constructor; [|constructor]. cbn [fst replies].
    rewrite sendto_payload_whole;
      rewrite process_request_in_place; apply received_into_length, Hb.
  - destruct (step_without_datagram a t Hrecv) as [Hrep _].
    rewrite Hrep. exact Hall.
Qed.

Lemma run_replies_sized (l : list answers) (t : task) :
  length (buf t) = REQUEST_RESPONSE_BUF_SIZE ->
  Forall (fun r => length (fst r) = REQUEST_RESPONSE_BUF_SIZE)
    (replies (trace t)) ->
  Forall (fun r => length (fst r) = REQUEST_RESPONSE_BUF_SIZE)
    (replies (trace (run process_request l t))).
Proof.
  revert t. induction l as [|a l IH]; intros t Hb Hall; [exact Hall|].
  cbn [run]. apply IH; [apply step_buf_length | apply step_replies_sized];
    assumption.
Qed.

(** C6.  The one buffer size, 1 + 2 * 4 = 9 bytes, serves requests and
    responses alike: [recvfrom] fills the 9-byte buffer, [process_request]
    is given that buffer and leaves the response in it, and [sendto] sends
    the 9 bytes of that same buffer; every reply of every run of the task
    is 9 bytes long. *)
Theorem response_reuses_request_buffer :
  REQUEST_RESPONSE_BUF_SIZE = (1 + 2 * 4)%nat /\
  (forall a t data src srclen,
      pc t = InnerLoop ->
      length (buf t) = REQUEST_RESPONSE_BUF_SIZE ->
      delivers a data src srclen ->
      let request := received_into (buf t) data in
      let response :=
        fst (process_request request (env (watchdog_check t))) in
      length request = REQUEST_RESPONSE_BUF_SIZE /\
      length response = REQUEST_RESPONSE_BUF_SIZE /\
      trace (step process_request a t) =
        trace (watchdog_check t) ++
        [EvIoctl (sock t) (fionread a);
         EvRecvFrom (sock t)
           (Z.of_nat (Nat.min (length data) REQUEST_RESPONSE_BUF_SIZE));
         EvProcessRequest request;
         EvSendTo (sock t) response src srclen]) /\
  (forall stack g l,
      length stack = REQUEST_RESPONSE_BUF_SIZE ->
      Forall (fun r => length (fst r) = REQUEST_RESPONSE_BUF_SIZE)
        (replies (trace (udp_server_task process_request stack g l)))).
Proof.
  split; [reflexivity | split].
  - intros a t data src srclen Hpc Hb Ha. cbv zeta.
    assert (Hreq : length (received_into (buf t) data)
                   = REQUEST_RESPONSE_BUF_SIZE)
      by (apply received_into_length, Hb).
    assert (Hres : length (fst (process_request (received_into (buf t) data)
                                  (env (watchdog_check t))))
                   = REQUEST_RESPONSE_BUF_SIZE)
      by (rewrite process_request_in_place; exact Hreq).
    split; [exact Hreq | split; [exact Hres|]].
    unfold step. rewrite Hpc.
    destruct (inner_iteration_delivers_fields a t data src srclen Ha)
      as (_ & _ & _ & _ & _ & _ & _ & _ & Htr).
    rewrite Htr, sendto_payload_whole by exact Hres. reflexivity.
  - intros stack g l Hstack. unfold udp_server_task.
    apply run_replies_sized; [exact Hstack | constructor].
Qed.

(** ** What a request buffer holds beyond the datagram *)

Lemma step_buf_zeroed (a : answers) (t : task) :
  buf t = repeat x00 REQUEST_RESPONSE_BUF_SIZE \/ receives a t = true ->
  length (buf t) = REQUEST_RESPONSE_BUF_SIZE ->
  buf (step process_request a t) = repeat x00 REQUEST_RESPONSE_BUF_SIZE.
Proof.
  intros Hz Hb. destruct (receives a t) eqn:Hrecv.
  - clear Hz. revert Hrecv. unfold receives, step.
    destruct (pc t) eqn:Hpc; try discriminate.
    destruct (incoming a) as [|data src srclen] eqn:Hr; try discriminate.
    intros Hd. apply Z.ltb_lt in Hd.
    destruct (inner_iteration_delivers_fields a t data src srclen
                (conj Hd Hr)) as (_ & Hbuf & _).
    rewrite Hbuf. apply memset_whole.
    rewrite process_request_in_place. apply received_into_length, Hb.
  - destruct Hz as [Hz | Hz]; [|discriminate].
    revert Hrecv. unfold receives, step. destruct (pc t) eqn:Hpc.
    + intros _. destruct (outer_iteration_fields a t) as (Hbuf & _).
      rewrite Hbuf. exact Hz.
    + intros Hrecv. destruct (Z.ltb_spec 0 (fionread a)) as [Hd | Hd].
      * destruct (incoming a) as [|data src srclen] eqn:Hr; [|discriminate].
        destruct (inner_iteration_faults_fields a t (conj Hd Hr))
          as (_ & Hbuf & _).
        rewrite Hbuf. exact Hz.
      * destruct (inner_iteration_idle_fields a t Hd) as (_ & Hbuf & _).
        rewrite Hbuf. exact Hz.
    + intros _. exact Hz.
Qed.

Lemma run_buf_zeroed (l : list answers) (t : task) :
  buf t = repeat x00 REQUEST_RESPONSE_BUF_SIZE ->
  buf (run process_request l t) = repeat x00 REQUEST_RESPONSE_BUF_SIZE.
Proof.
  revert t. induction l as [|a l IH]; intros t Hz; [exact Hz|].
  cbn [run]. apply IH, step_buf_zeroed; [left; exact Hz|].
  rewrite Hz. apply repeat_length.
Qed.

Lemma step_buf_without_datagram (a : answers) (t : task) :
  receives a t = false -> buf (step process_request a t) = buf t.
Proof.
  unfold receives, step. destruct (pc t) eqn:Hpc.
  - intros _. apply outer_iteration_fields.
  - intros Hrecv. destruct (Z.ltb_spec 0 (fionread a)) as [Hd | Hd].
    + destruct (incoming a) as [|data src srclen] eqn:Hr; [|discriminate].
      apply (inner_iteration_faults_fields a t (conj Hd Hr)).
    + apply (inner_iteration_idle_fields a t Hd).
  - reflexivity.
Qed.

(** Until the first datagram arrives the buffer is not written. *)
Lemma run_before_first_datagram (l : list answers) (t : task) :
  received process_request l t = O ->
  buf (run process_request l t) = buf t /\
  requests (trace (run process_request l t)) = requests (trace t).
Proof.
  revert t. induction l as [|a l IH]; intros t; cbn [run received];
    [split; reflexivity|].
  destruct (receives a t) eqn:Hrecv; [discriminate|].
  intros Hrest. destruct (IH _ Hrest) as [Hbuf Hreq].
  rewrite Hbuf, Hreq, step_buf_without_datagram by exact Hrecv.
  split; [reflexivity | apply step_without_datagram, Hrecv].
Qed.

(** C10.  Once the task has handled one datagram, every later datagram
    finds the buffer zeroed (line 181), so the request handed to
    [process_request], whose result is echoed, is the datagram's bytes
    followed by zero bytes only.  The first datagram the task ever handles
    is different: [buf] was never initialised, and the request carries,
    beyond the datagram, the bytes the stack held. *)
Theorem buffer_zero_beyond_datagram :
  (forall stack g l1 a1 l2 a2 data src srclen,
      length stack = REQUEST_RESPONSE_BUF_SIZE ->
      let t1 := udp_server_task process_request stack g l1 in
      receives a1 t1 = true ->
      let t2 := run process_request l2 (step process_request a1 t1) in
      pc t2 = InnerLoop ->
      delivers a2 data src srclen ->
      let n := Nat.min (length data) REQUEST_RESPONSE_BUF_SIZE in
      let request :=
        firstn n data ++ repeat x00 (REQUEST_RESPONSE_BUF_SIZE - n) in
      let response :=
        fst (process_request request (env (watchdog_check t2))) in
      requests (trace (step process_request a2 t2))
      = requests (trace t2) ++ [request] /\
      replies (trace (step process_request a2 t2))
      = replies (trace t2) ++ [(response, src)]) /\
  (forall stack g l a data src srclen,
      let t := udp_server_task process_request stack g l in
      received process_request l (task_start stack g) = O ->
      pc t = InnerLoop ->
      delivers a data src srclen ->
      let n := Nat.min (length data) REQUEST_RESPONSE_BUF_SIZE in
      requests (trace (step process_request a t))
      = [firstn n data ++ skipn n stack]).
Proof.
  split.
  - intros stack g l1 a1 l2 a2 data src srclen Hstack t1 Hrecv t2 Hpc Ha.
    cbv zeta.
    assert (Hb1 : length (buf t1) = REQUEST_RESPONSE_BUF_SIZE)
      by (apply run_buf_length; exact Hstack).
    assert (Hz : buf t2 = repeat x00 REQUEST_RESPONSE_BUF_SIZE).
    { apply run_buf_zeroed, step_buf_zeroed; [right; exact Hrecv | exact Hb1]. }
    rewrite (step_inner a2 t2 Hpc).
    destruct (inner_iteration_delivers_fields a2 t2 data src srclen Ha)
      as (_ & _ & _ & _ & _ & _ & _ & _ & Htr).
    rewrite Htr, requests_app, replies_app, watchdog_check_requests,
      watchdog_check_replies, Hz, received_into_zeroed.
    cbn [requests replies].
    rewrite sendto_payload_whole; [split; reflexivity|].
    rewrite process_request_in_place, <- received_into_zeroed.
    apply received_into_length, repeat_length.
  - intros stack g l a data src srclen t Hnone Hpc Ha. cbv zeta.
    destruct (run_before_first_datagram l (task_start stack g) Hnone)
      as [Hbuf Hreq].
    fold (udp_server_task process_request stack g l) in Hbuf, Hreq.
    fold t in Hbuf, Hreq. cbn in Hbuf, Hreq.
    unfold step. rewrite Hpc.
    destruct (inner_iteration_delivers_fields a t data src srclen Ha)
      as (_ & _ & _ & _ & _ & _ & _ & _ & Htr).
    rewrite Htr, requests_app, watchdog_check_requests, Hreq, Hbuf.
    reflexivity.
Qed.

(** ** The idle counter *)

Lemma step_counter_bounded (a : answers) (t : task) :
  (pc t = InnerLoop -> 0 <= no_msg_cnt t <= no_msg_cnt_warn) ->
  pc (step process_request a t) = InnerLoop ->
  0 <= no_msg_cnt (step process_request a t) <= no_msg_cnt_warn.
Proof.
  intros Hinv. unfold step. destruct (pc t) eqn:Hpc.
  - destruct (outer_iteration_fields a t) as (_ & _ & _ & Hneg & Hpos).
    destruct (Z.lt_ge_cases (socket_ret a) 0) as [H | H].
    + destruct (Hneg H) as [Hpc' _]. rewrite Hpc'. discriminate.
    + destruct (Hpos H) as (_ & Hcnt & _). rewrite Hcnt, no_msg_cnt_warn_eq.
      lia.
  - specialize (Hinv eq_refl).
    destruct (Z.ltb_spec 0 (fionread a)) as [Hd | Hd].
    + destruct (incoming a) as [|data src srclen] eqn:Hr.
      * destruct (inner_iteration_faults_fields a t (conj Hd Hr))
          as (Hpc' & _).
        rewrite Hpc'. discriminate.
      * destruct (inner_iteration_delivers_fields a t data src srclen
                    (conj Hd Hr)) as (_ & _ & _ & _ & _ & Hcnt & _).
        rewrite Hcnt, no_msg_cnt_warn_eq. lia.
    + destruct (inner_iteration_idle_fields a t Hd)
        as (_ & _ & _ & Hcnt & _).
      rewrite Hcnt. intros _.
      destruct (is_stream_stop (watchdog_check t)) eqn:Hs; [exact Hinv|].
      destruct (watchdog_check_post t Hs) as (Hlt & _).
      rewrite no_msg_cnt_warn_eq in *.
      rewrite wrap_int_in_range by (unfold INT_MIN, INT_MAX; lia). lia.
  - rewrite Hpc. discriminate.
Qed.

Lemma run_counter_bounded (l : list answers) (t : task) :
  (pc t = InnerLoop -> 0 <= no_msg_cnt t <= no_msg_cnt_warn) ->
  pc (run process_request l t) = InnerLoop ->
  0 <= no_msg_cnt (run process_request l t) <= no_msg_cnt_warn.
Proof.
  revert t. induction l as [|a l IH]; intros t Hinv; [exact Hinv|].
  cbn [run]. apply IH, step_counter_bounded, Hinv.
Qed.

(** C9.  Whenever the task stands at the suspension check, the idle
    counter lies between 0 and [no_msg_cnt_warn] = 750: an idle iteration
    increments it only while the stream-stopped flag is clear, which after
    the check implies it is below the threshold, so the increment is exact
    (it never wraps around) and never passes the threshold. *)
Theorem idle_counter_bounded (stack : list byte)
    (g : globals ControllerState) (l : list answers) :
  let t := udp_server_task process_request stack g l in
  pc t = InnerLoop ->
  no_msg_cnt_warn = 750 /\
  0 <= no_msg_cnt t <= no_msg_cnt_warn /\
  forall a, idle a ->
    no_msg_cnt (step process_request a t)
    = (if is_stream_stop (watchdog_check t) then no_msg_cnt t
       else no_msg_cnt t + 1) /\
    no_msg_cnt (step process_request a t) <= no_msg_cnt_warn.
Proof.
  cbv zeta. set (t := udp_server_task process_request stack g l).
  intros Hpc.
  assert (Hb : 0 <= no_msg_cnt t <= no_msg_cnt_warn).
  { apply run_counter_bounded; [discriminate | exact Hpc]. }
  split; [reflexivity | split; [exact Hb|]].
  intros a Ha. rewrite (step_inner a t Hpc).
  destruct (inner_iteration_idle_fields a t Ha) as (_ & _ & _ & Hcnt & _).
  rewrite Hcnt.
  destruct (is_stream_stop (watchdog_check t)) eqn:Hs;
    [split; [reflexivity | apply Hb]|].
  destruct (watchdog_check_post t Hs) as (Hlt & _).
  rewrite no_msg_cnt_warn_eq in *.
  rewrite wrap_int_in_range by (unfold INT_MIN, INT_MAX; lia). lia.
Qed.

(** ** The watchdog *)

(** A stretch of idle iterations below the threshold only counts. *)
Lemma run_idle_below_threshold (l : list answers) (t : task) :
  Forall idle l ->
  pc t = InnerLoop ->
  is_stream_stop t = false ->
  0 <= no_msg_cnt t ->
  no_msg_cnt t + Z.of_nat (length l) <= no_msg_cnt_warn ->
  let t' := run process_request l t in
  pc t' = InnerLoop /\
  is_stream_stop t' = false /\
  no_msg_cnt t' = no_msg_cnt t + Z.of_nat (length l) /\
  env t' = env t /\
  stream_stops (trace t') = stream_stops (trace t) /\
  ticks (trace t') = (ticks (trace t) + length l)%nat.
Proof.
  cbv zeta. revert t.
  induction l as [|a l IH]; intros t Hidle Hpc Hs Hlo Hhi; cbn [run length].
  - repeat split; try assumption; lia.
  - inversion Hidle as [|? ? Ha Hrest]; subst. cbn [length] in Hhi.
    assert (Hw : watchdog_check t = t) by (apply watchdog_check_quiet; lia).
    destruct (inner_iteration_idle_fields a t Ha)
      as (Hpc' & _ & _ & Hcnt & Hs' & Henv & Htr).
    rewrite Hw in *. rewrite Hs in Hcnt.
    rewrite no_msg_cnt_warn_eq in Hhi.
    rewrite wrap_int_in_range in Hcnt by (unfold INT_MIN, INT_MAX; lia).
    rewrite <- (step_inner a t Hpc) in *.
    destruct (IH (step process_request a t)) as (H1 & H2 & H3 & H4 & H5 & H6);
      try congruence; try (rewrite no_msg_cnt_warn_eq); try lia.
    rewrite H3, H4, H5, H6, Hcnt, Henv, Htr, stream_stops_app, ticks_app.
    cbn. repeat split; try assumption; lia.
Qed.

(** C2.  From the state in which the inner loop is entered (counter 0,
    stream not stopped), with [no_msg_cnt_warn] = 15.0 * (1000.0 / 20) =
    750, a stretch of idle iterations of length at most 750 leaves the
    watchdog active and calls [stream_stop] not once; the check the loop
    evaluates next, at the head of the following iteration and before it
    polls the socket, does nothing after fewer than 750 idle ticks, and
    after exactly 750 it calls [stream_stop], which disables the stream,
    and sets the flag. *)
Theorem watchdog_suspends_after_750_idle_ticks (l : list answers) (t : task) :
  pc t = InnerLoop ->
  no_msg_cnt t = 0 ->
  is_stream_stop t = false ->
  Forall idle l ->
  (length l <= 750)%nat ->
  let t' := run process_request l t in
  no_msg_cnt_warn = 750 /\
  watchdog_state t' = ACTIVE /\
  no_msg_cnt t' = Z.of_nat (length l) /\
  env t' = env t /\
  stream_stops (trace t') = stream_stops (trace t) /\
  ticks (trace t') = (ticks (trace t) + length l)%nat /\
  ((length l < 750)%nat -> watchdog_check t' = t') /\
  (length l = 750%nat ->
   watchdog_state (watchdog_check t') = SUSPENDED /\
   stream_enabled (env (watchdog_check t')) = false /\
   trace (watchdog_check t') = trace t' ++ [EvStreamStop] /\
   forall a, idle a ->
     trace (step process_request a t') =
       trace t' ++
       [EvStreamStop; EvIoctl (sock t') (fionread a);
        EvDelay SERVER_TASK_SLEEP_TIME_MS]).
Proof.
  intros Hpc Hcnt Hs Hidle Hlen. cbv zeta.
  destruct (run_idle_below_threshold l t Hidle Hpc Hs)
    as (Hpc' & Hs' & Hcnt' & Henv & Hstops & Hticks);
    try (rewrite ?no_msg_cnt_warn_eq; lia).
  rewrite Hcnt in Hcnt'. cbn in Hcnt'.
  unfold watchdog_state. rewrite Hs'.
  repeat split; try assumption.
  - intros Hlt. apply watchdog_check_quiet. left.
    rewrite Hcnt', no_msg_cnt_warn_eq. lia.
  - rewrite watchdog_check_fires
      by (rewrite ?Hcnt', ?no_msg_cnt_warn_eq; first [lia | assumption]).
    reflexivity.
  - rewrite watchdog_check_fires
      by (rewrite ?Hcnt', ?no_msg_cnt_warn_eq; first [lia | assumption]).
    reflexivity.
  - rewrite watchdog_check_fires
      by (rewrite ?Hcnt', ?no_msg_cnt_warn_eq; first [lia | assumption]).
    reflexivity.
  - intros a Ha. rewrite (step_inner a _ Hpc').
    destruct (inner_iteration_idle_fields a (run process_request l t) Ha)
      as (_ & _ & _ & _ & _ & _ & Htr).
    rewrite Htr, watchdog_check_fires
      by (rewrite ?Hcnt', ?no_msg_cnt_warn_eq; first [lia | assumption]).
    cbn. rewrite <- app_assoc. reflexivity.
Qed.

(** In the suspended state, the iteration that receives the next datagram
    clears the stream-stopped flag (back to active) and resets the idle
    counter to 0.  The loop itself calls nothing that restarts the stream:
    its only calls are [ioctl], [recvfrom], [process_request] and [sendto],
    and the globals afterwards, the stream switch among them, are the ones
    [process_request] leaves. *)
Theorem request_resumes_watchdog (a : answers) (t : task)
    (data : list byte) (src : sockaddr_in6) (srclen : Z) :
  pc t = InnerLoop ->
  watchdog_state t = SUSPENDED ->
  delivers a data src srclen ->
  let request := received_into (buf t) data in
  let result := process_request request (env t) in
  let t' := step process_request a t in
  watchdog_state t' = ACTIVE /\
  no_msg_cnt t' = 0 /\
  env t' = snd result /\
  trace t' =
    trace t ++
    [EvIoctl (sock t) (fionread a);
     EvRecvFrom (sock t)
       (Z.of_nat (Nat.min (length data) REQUEST_RESPONSE_BUF_SIZE));
     EvProcessRequest request;
     EvSendTo (sock t) (sendto_payload (fst result) REQUEST_RESPONSE_BUF_SIZE)
       src srclen].
Proof.
  intros Hpc Hsus Ha. cbv zeta.
  assert (Hs : is_stream_stop t = true).
  { unfold watchdog_state in Hsus.
    destruct (is_stream_stop t); [reflexivity | discriminate]. }
  assert (Hw : watchdog_check t = t)
    by (apply watchdog_check_quiet; right; exact Hs).
  rewrite (step_inner a t Hpc).
  destruct (inner_iteration_delivers_fields a t data src srclen Ha)
    as (_ & _ & _ & _ & _ & Hcnt & Hs' & Henv & Htr).
  rewrite Hw in *. unfold watchdog_state. rewrite Hs'.
  repeat split; assumption.
Qed.

(** C4 (as amended).  An iteration that finds no data increments the idle
    counter by exactly 1 while the watchdog is active and below the
    threshold; in the suspended state the counter keeps its value; and when
    the watchdog is active with the counter at the threshold, the check
    suspends it first and the counter keeps its value as well. *)
Theorem idle_tick_counts_only_while_active (a : answers) (t : task) :
  pc t = InnerLoop ->
  idle a ->
  INT_MIN <= no_msg_cnt t ->
  let t' := step process_request a t in
  (watchdog_state t = ACTIVE -> no_msg_cnt t < no_msg_cnt_warn ->
   no_msg_cnt t' = no_msg_cnt t + 1 /\ watchdog_state t' = ACTIVE) /\
  (watchdog_state t = ACTIVE -> no_msg_cnt_warn <= no_msg_cnt t ->
   no_msg_cnt t' = no_msg_cnt t /\ watchdog_state t' = SUSPENDED) /\
  (watchdog_state t = SUSPENDED ->
   no_msg_cnt t' = no_msg_cnt t /\ watchdog_state t' = SUSPENDED).
Proof.
  intros Hpc Ha Hmin. cbv zeta. rewrite (step_inner a t Hpc).
  destruct (inner_iteration_idle_fields a t Ha)
    as (_ & _ & _ & Hcnt & Hs' & _).
  unfold watchdog_state. rewrite Hcnt, Hs'.
  destruct (is_stream_stop t) eqn:Hs.
  - rewrite watchdog_check_quiet, Hs by (right; exact Hs).
    repeat split; intros; try discriminate; reflexivity.
  - split; [|split]; try discriminate.
    + intros _ Hlt. rewrite watchdog_check_quiet, Hs by (left; exact Hlt).
      split; [|reflexivity].
      rewrite no_msg_cnt_warn_eq in Hlt.
      apply wrap_int_in_range. unfold INT_MIN, INT_MAX in *. lia.
    + intros _ Hge. rewrite watchdog_check_fires by assumption.
      split; reflexivity.
Qed.

(** ** Transport faults *)

(** C7.  When [recvfrom] reports an error the task leaves the inner loop,
    shuts the socket down and closes it, and the next pass of the outer
    loop creates and binds a new one; [process_request] is not called, and
    the PID data is, after the fault and after the restart, what it was
    before. *)
Theorem transport_fault_keeps_controller_state (a : answers) (t : task) :
  pc t = InnerLoop ->
  sock t <> -1 ->
  faults a ->
  let t1 := step process_request a t in
  pc t1 = OuterLoop /\
  pid_data (env t1) = pid_data (env t) /\
  requests (trace t1) = requests (trace t) /\
  trace t1 =
    trace (watchdog_check t) ++
    [EvIoctl (sock t) (fionread a); EvRecvFrom (sock t) (-1);
     EvShutdown (sock t); EvClose (sock t)] /\
  forall a',
    let t2 := step process_request a' t1 in
    pid_data (env t2) = pid_data (env t) /\
    (0 <= socket_ret a' ->
     pc t2 = InnerLoop /\
     sock t2 = socket_ret a' /\
     trace t2 =
       trace t1 ++
       [EvSocket (socket_ret a'); EvBind (socket_ret a') (bind_ret a')]).
Proof.
  intros Hpc Hsock Ha. cbv zeta. rewrite (step_inner a t Hpc).
  destruct (inner_iteration_faults_fields a t Ha)
    as (Hpc1 & _ & _ & Henv & Htr).
  destruct (watchdog_check_frame t) as (_ & _ & _ & _ & _ & _ & Hpid).
  replace (sock t =? -1) with false in Htr
    by (symmetry; apply Z.eqb_neq; exact Hsock).
  assert (Hpid1 : pid_data (env (inner_iteration process_request a t))
                  = pid_data (env t)) by (rewrite Henv; exact Hpid).
  repeat split; try assumption.
  - rewrite Htr, requests_app, watchdog_check_requests. cbn.
    apply app_nil_r.
  - rewrite (step_outer a' _ Hpc1).
    destruct (outer_iteration_fields a'
                (inner_iteration process_request a t)) as (_ & _ & He & _).
    rewrite He. exact Hpid1.
  - rewrite (step_outer a' _ Hpc1).
    apply (outer_iteration_fields a' (inner_iteration process_request a t)).
    assumption.
  - rewrite (step_outer a' _ Hpc1).
    apply (outer_iteration_fields a' (inner_iteration process_request a t)).
  - rewrite (step_outer a' _ Hpc1).
    apply (outer_iteration_fields a' (inner_iteration process_request a t)).
    assumption.
Qed.

(** ** Further behaviour of the request loop *)

Lemma run_app (l1 l2 : list answers) (t : task) :
  run process_request (l1 ++ l2) t
  = run process_request l2 (run process_request l1 t).
Proof.
  revert t. induction l1 as [|a l1 IH]; intros t; [reflexivity|].
  cbn [app run]. apply IH.
Qed.

Lemma run_deleted (l : list answers) (t : task) :
  pc t = TaskDeleted -> run process_request l t = t.
Proof.
  induction l as [|a l IH]; intros Hpc; [reflexivity|].
  cbn [run]. unfold step. rewrite Hpc. apply IH, Hpc.
Qed.

Lemma watchdog_check_env (t : task) :
  env (watchdog_check t) = env t \/
  env (watchdog_check t) = stream_stop (env t).
Proof.
  unfold watchdog_check.
  destruct ((no_msg_cnt_warn <=? no_msg_cnt t) && negb (is_stream_stop t));
    cbn; auto.
Qed.

Lemma watchdog_check_ticks (t : task) :
  ticks (trace (watchdog_check t)) = ticks (trace t).
Proof.
  destruct (watchdog_check_trace t) as [H | H]; rewrite H;
    [reflexivity | rewrite ticks_app; cbn; lia].
Qed.

(** In the suspended state iterations without data only sleep. *)
Lemma run_idle_suspended (l : list answers) (t : task) :
  Forall idle l ->
  pc t = InnerLoop ->
  is_stream_stop t = true ->
  let t' := run process_request l t in
  pc t' = InnerLoop /\
  is_stream_stop t' = true /\
  no_msg_cnt t' = no_msg_cnt t /\
  env t' = env t /\
  buf t' = buf t /\
  stream_stops (trace t') = stream_stops (trace t) /\
  ticks (trace t') = (ticks (trace t) + length l)%nat.
Proof.
  cbv zeta. revert t.
  induction l as [|a l IH]; intros t Hidle Hpc Hs; cbn [run length].
  - repeat split; try assumption; lia.
  - inversion Hidle as [|? ? Ha Hrest]; subst.
    assert (Hw : watchdog_check t = t)
      by (apply watchdog_check_quiet; right; exact Hs).
    destruct (inner_iteration_idle_fields a t Ha)
      as (Hpc' & Hbuf & _ & Hcnt & Hs' & Henv & Htr).
    rewrite Hw in *. rewrite Hs in Hcnt.
    rewrite <- (step_inner a t Hpc) in *.
    destruct (IH (step process_request a t))
      as (H1 & H2 & H3 & H4 & H5 & H6 & H7); try congruence.
    rewrite H3, H4, H5, H6, H7, Hcnt, Henv, Hbuf, Htr, stream_stops_app,
      ticks_app.
    cbn. repeat split; try assumption; lia.
Qed.

(** X1.  When [socket] fails the task deletes itself: it makes no further call,
    whatever the environment offers afterwards. *)
Theorem socket_failure_ends_task (a : answers) (t : task)
    (l : list answers) :
  pc t = OuterLoop ->
  socket_ret a < 0 ->
  let t' := step process_request a t in
  pc t' = TaskDeleted /\
  trace t' = trace t ++ [EvSocket (socket_ret a); EvTaskDelete] /\
  env t' = env t /\
  run process_request l t' = t'.
Proof.
  intros Hpc Hneg. cbv zeta. rewrite (step_outer a t Hpc).
  destruct (outer_iteration_fields a t) as (_ & _ & Henv & Hfail & _).
  destruct (Hfail Hneg) as [Hpc' Htr].
  repeat split; try assumption. apply run_deleted, Hpc'.
Qed.

(** X2.  A failure of [bind] is logged and otherwise ignored: the task enters
    the inner loop as after a successful [bind], and its next iteration
    polls the unbound socket. *)
Theorem bind_failure_is_ignored (a a' : answers) (t : task) :
  pc t = OuterLoop ->
  0 <= socket_ret a ->
  bind_ret a < 0 ->
  idle a' ->
  let t1 := step process_request a t in
  pc t1 = InnerLoop /\
  sock t1 = socket_ret a /\
  no_msg_cnt t1 = 0 /\
  is_stream_stop t1 = false /\
  trace (step process_request a' t1) =
    trace t ++
    [EvSocket (socket_ret a); EvBind (socket_ret a) (bind_ret a);
     EvIoctl (socket_ret a) (fionread a');
     EvDelay SERVER_TASK_SLEEP_TIME_MS].
Proof.
  intros Hpc Hsock _ Ha'. cbv zeta. rewrite (step_outer a t Hpc).
  destruct (outer_iteration_fields a t) as (_ & Hfd & _ & _ & Hok).
  destruct (Hok Hsock) as (Hpc1 & Hcnt & Hs & Htr).
  repeat split; try assumption.
  rewrite (step_inner a' _ Hpc1).
  destruct (inner_iteration_idle_fields a' (outer_iteration a t) Ha')
    as (_ & _ & _ & _ & _ & _ & Htr').
  rewrite Htr', watchdog_check_quiet
    by (left; rewrite Hcnt, no_msg_cnt_warn_eq; lia).
  rewrite Htr, Hfd, <- app_assoc. reflexivity.
Qed.

(** X3.  However long the client stays silent, [stream_stop] is called once:
    after more than 750 iterations without data the watchdog is suspended,
    the counter stands at 750, and the stream has been stopped by a single
    call. *)
Theorem silence_suspends_once (l : list answers) (t : task) :
  pc t = InnerLoop ->
  no_msg_cnt t = 0 ->
  is_stream_stop t = false ->
  Forall idle l ->
  (750 < length l)%nat ->
  let t' := run process_request l t in
  pc t' = InnerLoop /\
  watchdog_state t' = SUSPENDED /\
  no_msg_cnt t' = 750 /\
  env t' = stream_stop (env t) /\
  stream_stops (trace t') = S (stream_stops (trace t)) /\
  ticks (trace t') = (ticks (trace t) + length l)%nat.
Proof.
  intros Hpc Hcnt Hs Hidle Hlen. cbv zeta.
  assert (Hsplit : exists l1 a l2,
             l = l1 ++ a :: l2 /\ length l1 = 750%nat).
  { exists (firstn 750 l).
    destruct (skipn 750 l) as [|a l2] eqn:Hl2.
    - apply (f_equal (@length answers)) in Hl2.
      rewrite length_skipn in Hl2. cbn [length] in Hl2. lia.
    - exists a, l2. rewrite <- Hl2, firstn_skipn, length_firstn.
      split; [reflexivity | lia]. }
  destruct Hsplit as (l1 & a & l2 & -> & Hl1).
  apply Forall_app in Hidle. destruct Hidle as [Hidle1 Hidle2].
  inversion Hidle2 as [|? ? Ha Hrest]; subst.
  rewrite run_app. cbn [run].
  destruct (run_idle_below_threshold l1 t Hidle1 Hpc Hs)
    as (Hpc1 & Hs1 & Hcnt1 & Henv1 & Hst1 & Htk1);
    try (rewrite ?Hl1, ?no_msg_cnt_warn_eq; lia).
  rewrite Hl1, Hcnt in Hcnt1.
  set (t1 := run process_request l1 t) in *.
  assert (Hfire : watchdog_check t1 =
                  set_is_stream_stop true
                    (set_env (stream_stop (env t1)) (emit EvStreamStop t1))).
  { apply watchdog_check_fires; [rewrite Hcnt1, no_msg_cnt_warn_eq; lia|].
    exact Hs1. }
  destruct (inner_iteration_idle_fields a t1 Ha)
    as (Hpc2 & _ & _ & Hcnt2 & Hs2 & Henv2 & Htr2).
  rewrite Hfire in Hcnt2, Hs2, Henv2, Htr2.
  cbn [set_is_stream_stop set_env emit is_stream_stop env trace]
    in Hcnt2, Hs2, Henv2, Htr2.
  rewrite <- (step_inner a t1 Hpc1) in *.
  destruct (run_idle_suspended l2 (step process_request a t1) Hrest)
    as (H1 & H2 & H3 & H4 & _ & H6 & H7); try congruence.
  unfold watchdog_state. rewrite H2, H3, H4, H6, H7, Hcnt2, Henv2, Htr2.
  rewrite <- !app_assoc, !stream_stops_app, !ticks_app, Hcnt1, Henv1, Hst1,
    Htk1, length_app.
  cbn [stream_stops ticks app length].
  repeat split; try assumption; lia.
Qed.

(** X4.  A datagram that arrives just as the timeout has expired does not
    prevent the stop: the check comes first and calls [stream_stop], then
    the datagram is received, processed with the stream already disabled,
    and answered; the watchdog is active again with counter 0. *)
Theorem request_at_timeout_still_stops_stream (a : answers) (t : task)
    (data : list byte) (src : sockaddr_in6) (srclen : Z) :
  pc t = InnerLoop ->
  is_stream_stop t = false ->
  no_msg_cnt_warn <= no_msg_cnt t ->
  delivers a data src srclen ->
  let request := received_into (buf t) data in
  let result := process_request request (stream_stop (env t)) in
  let t' := step process_request a t in
  watchdog_state t' = ACTIVE /\
  no_msg_cnt t' = 0 /\
  env t' = snd result /\
  trace t' =
    trace t ++
    [EvStreamStop;
     EvIoctl (sock t) (fionread a);
     EvRecvFrom (sock t)
       (Z.of_nat (Nat.min (length data) REQUEST_RESPONSE_BUF_SIZE));
     EvProcessRequest request;
     EvSendTo (sock t) (sendto_payload (fst result) REQUEST_RESPONSE_BUF_SIZE)
       src srclen].
Proof.
  intros Hpc Hs Hcnt Ha. cbv zeta. rewrite (step_inner a t Hpc).
  destruct (inner_iteration_delivers_fields a t data src srclen Ha)
    as (_ & _ & _ & _ & _ & Hcnt' & Hs' & Henv & Htr).
  rewrite (watchdog_check_fires t Hcnt Hs) in Henv, Htr.
  cbn [set_is_stream_stop set_env emit env trace] in Henv, Htr.
  rewrite <- app_assoc in Htr.
  unfold watchdog_state. rewrite Hs'.
  repeat split; assumption.
Qed.

(** X5.  Every handled datagram restarts the timeout, whatever the state of the
    watchdog was: during the 750 iterations without data that follow it
    [stream_stop] is not called, and after the 750th the check fires. *)
Theorem request_postpones_suspension (a : answers) (t : task)
    (data : list byte) (src : sockaddr_in6) (srclen : Z)
    (l : list answers) :
  pc t = InnerLoop ->
  delivers a data src srclen ->
  Forall idle l ->
  (length l <= 750)%nat ->
  let t1 := step process_request a t in
  let t2 := run process_request l t1 in
  watchdog_state t1 = ACTIVE /\
  no_msg_cnt t1 = 0 /\
  watchdog_state t2 = ACTIVE /\
  no_msg_cnt t2 = Z.of_nat (length l) /\
  env t2 = env t1 /\
  stream_stops (trace t2) = stream_stops (trace t1) /\
  (length l = 750%nat ->
   trace (watchdog_check t2) = trace t2 ++ [EvStreamStop]).
Proof.
  intros Hpc Ha Hidle Hlen. cbv zeta. rewrite (step_inner a t Hpc).
  destruct (inner_iteration_delivers_fields a t data src srclen Ha)
    as (Hpc1 & _ & _ & _ & _ & Hcnt1 & Hs1 & _).
  rewrite Hpc in Hpc1.
  destruct (run_idle_below_threshold l
              (inner_iteration process_request a t) Hidle Hpc1 Hs1)
    as (_ & Hs2 & Hcnt2 & Henv2 & Hst2 & _);
    try (rewrite ?Hcnt1, ?no_msg_cnt_warn_eq; lia).
  rewrite Hcnt1 in Hcnt2.
  unfold watchdog_state. rewrite Hs1, Hs2.
  repeat split; try assumption.
  intros H750. rewrite watchdog_check_fires; [reflexivity | | exact Hs2].
  rewrite Hcnt2, no_msg_cnt_warn_eq. lia.
Qed.

(** What a step that receives no datagram does to the globals. *)
Lemma step_env_without_datagram (a : answers) (t : task) :
  receives a t = false ->
  env (step process_request a t) = env t \/
  env (step process_request a t) = stream_stop (env t).
Proof.
  unfold receives, step. destruct (pc t) eqn:Hpc.
  - intros _. left. apply outer_iteration_fields.
  - intros Hrecv. destruct (Z.ltb_spec 0 (fionread a)) as [Hd | Hd].
    + destruct (incoming a) as [|data src srclen] eqn:Hr; [|discriminate].
      destruct (inner_iteration_faults_fields a t (conj Hd Hr))
        as (_ & _ & _ & Henv & _).
      rewrite Henv. apply watchdog_check_env.
    + destruct (inner_iteration_idle_fields a t Hd)
        as (_ & _ & _ & _ & _ & Henv & _).
      rewrite Henv. apply watchdog_check_env.
  - intros _. left. reflexivity.
Qed.

(** X6.  Only [process_request] writes the PID data, and only it can switch the
    stream on: along a run in which no datagram is received (idle
    iterations, failing [recvfrom], restarts of the socket, deletion of
    the task) the PID data stays what it was, and a stream that is enabled
    at the end was enabled at the start. *)
Theorem only_requests_touch_controller_state (l : list answers) (t : task) :
  received process_request l t = O ->
  pid_data (env (run process_request l t)) = pid_data (env t) /\
  (stream_enabled (env (run process_request l t)) = true ->
   stream_enabled (env t) = true).
Proof.
  revert t. induction l as [|a l IH]; intros t; cbn [run received];
    [split; auto|].
  destruct (receives a t) eqn:Hrecv; [discriminate|].
  intros Hrest. destruct (IH _ Hrest) as [Hpid Hstream].
  rewrite Hpid.
  destruct (step_env_without_datagram a t Hrecv) as [Henv | Henv];
    rewrite Henv in *; cbn in *; split; auto.
  intros H. discriminate (Hstream H).
Qed.

Lemma received_into_full (b data : list byte) :
  length b = REQUEST_RESPONSE_BUF_SIZE ->
  (REQUEST_RESPONSE_BUF_SIZE <= length data)%nat ->
  received_into b data = firstn REQUEST_RESPONSE_BUF_SIZE data.
Proof.
  intros Hb Hd. unfold received_into.
  rewrite Nat.min_r by exact Hd.
  rewrite (skipn_all2 b) by lia. apply app_nil_r.
Qed.

(** X7.  A datagram of 9 bytes or more overwrites the whole buffer: the
    request handed to [process_request] is the first 9 bytes of the
    datagram, whatever the buffer held before (also the first time, when it
    is uninitialised); the bytes past the ninth are dropped. *)
Theorem full_frame_overwrites_buffer (a : answers) (t : task)
    (data : list byte) (src : sockaddr_in6) (srclen : Z) :
  pc t = InnerLoop ->
  length (buf t) = REQUEST_RESPONSE_BUF_SIZE ->
  delivers a data src srclen ->
  (REQUEST_RESPONSE_BUF_SIZE <= length data)%nat ->
  let request := firstn REQUEST_RESPONSE_BUF_SIZE data in
  let result := process_request request (env (watchdog_check t)) in
  let t' := step process_request a t in
  requests (trace t') = requests (trace t) ++ [request] /\
  replies (trace t') = replies (trace t) ++ [(fst result, src)] /\
  env t' = snd result /\
  (length data = REQUEST_RESPONSE_BUF_SIZE -> request = data).
Proof.
  intros Hpc Hb Ha Hd. cbv zeta. rewrite (step_inner a t Hpc).
  destruct (inner_iteration_delivers_fields a t data src srclen Ha)
    as (_ & _ & _ & _ & _ & _ & _ & Henv & Htr).
  rewrite (received_into_full (buf t) data Hb Hd) in Henv, Htr.
  rewrite Htr, requests_app, replies_app, watchdog_check_requests,
    watchdog_check_replies.
  cbn [requests replies].
  rewrite sendto_payload_whole.
  - repeat split; try assumption. intros H. apply firstn_all2. lia.
  - rewrite process_request_in_place, length_firstn. lia.
Qed.

Lemma received_idle (l : list answers) (t : task) :
  Forall idle l -> pc t = InnerLoop -> received process_request l t = O.
Proof.
  revert t. induction l as [|x l IH]; intros t Hidle Hpc; [reflexivity|].
  inversion Hidle as [|? ? Hx Hrest]; subst. cbn [received].
  unfold receives. rewrite Hpc.
  replace (0 <? fionread x) with false
    by (symmetry; apply Z.ltb_ge; exact Hx).
  assert (Hnext : received process_request l (step process_request x t) = O).
  { apply IH; [exact Hrest|]. rewrite (step_inner x t Hpc).
    destruct (inner_iteration_idle_fields x t Hx) as (Hp & _).
    rewrite Hp. exact Hpc. }
  rewrite Hnext. destruct (incoming x); reflexivity.
Qed.

(** X8.  A failing [recvfrom] restarts the timeout as well.  When it strikes
    while the stream is suspended, the new inner loop starts active with
    counter 0 although no request was handled and the stream is still
    disabled; after 750 further iterations without data [stream_stop] is
    called a second time. *)
Theorem fault_restarts_watchdog (a a' : answers) (t : task)
    (l : list answers) :
  pc t = InnerLoop ->
  is_stream_stop t = true ->
  faults a ->
  0 <= socket_ret a' ->
  Forall idle l ->
  length l = 750%nat ->
  let t1 := step process_request a' (step process_request a t) in
  let t2 := run process_request l t1 in
  pc t1 = InnerLoop /\
  watchdog_state t1 = ACTIVE /\
  no_msg_cnt t1 = 0 /\
  env t1 = env t /\
  requests (trace t2) = requests (trace t) /\
  env t2 = env t /\
  stream_stops (trace t2) = stream_stops (trace t) /\
  stream_stops (trace (watchdog_check t2)) = S (stream_stops (trace t)).
Proof.
  intros Hpc Hs Ha Hsock Hidle Hlen. cbv zeta.
  assert (Hw : watchdog_check t = t)
    by (apply watchdog_check_quiet; right; exact Hs).
  rewrite (step_inner a t Hpc).
  destruct (inner_iteration_faults_fields a t Ha)
    as (Hpc0 & _ & _ & Henv0 & Htr0).
  rewrite Hw in Henv0, Htr0.
  set (t0 := inner_iteration process_request a t) in *.
  rewrite (step_outer a' t0 Hpc0).
  destruct (outer_iteration_fields a' t0) as (_ & _ & Henv1 & _ & Hok).
  destruct (Hok Hsock) as (Hpc1 & Hcnt1 & Hs1 & Htr1).
  set (t1 := outer_iteration a' t0) in *.
  assert (Hst1 : stream_stops (trace t1) = stream_stops (trace t)).
  { rewrite Htr1, Htr0, !stream_stops_app.
    destruct (sock t =? -1); cbn; lia. }
  assert (Hreq1 : requests (trace t1) = requests (trace t)).
  { rewrite Htr1, Htr0, !requests_app.
    destruct (sock t =? -1); cbn; rewrite !app_nil_r; reflexivity. }
  destruct (run_idle_below_threshold l t1 Hidle Hpc1 Hs1)
    as (_ & Hs2 & Hcnt2 & Henv2 & Hst2 & _);
    try (rewrite ?Hcnt1, ?Hlen, ?no_msg_cnt_warn_eq; lia).
  assert (Hnone : received process_request l t1 = O)
    by (apply received_idle; assumption).
  destruct (run_before_first_datagram l t1 Hnone) as [_ Hreq2].
  unfold watchdog_state. rewrite Hs1.
  repeat split; try assumption; try congruence.
  rewrite watchdog_check_fires; [| | exact Hs2].
  - cbn [set_is_stream_stop set_env emit trace].
    rewrite stream_stops_app, Hst2, Hst1. cbn. lia.
  - rewrite Hcnt2, Hcnt1, Hlen, no_msg_cnt_warn_eq. lia.
Qed.

Lemma step_ticks (a : answers) (t : task) :
  ticks (trace (step process_request a t))
  = (ticks (trace t) + (if idles a t then 1 else 0))%nat.
Proof.
  unfold idles, step. destruct (pc t) eqn:Hpc.
  - destruct (outer_iteration_fields a t) as (_ & _ & _ & Hneg & Hpos).
    destruct (Z.lt_ge_cases (socket_ret a) 0) as [H | H].
    + destruct (Hneg H) as [_ Htr]. rewrite Htr, ticks_app. reflexivity.
    + destruct (Hpos H) as (_ & _ & _ & Htr).
      rewrite Htr, ticks_app. reflexivity.
  - destruct (Z.leb_spec (fionread a) 0) as [Hd | Hd].
    + destruct (inner_iteration_idle_fields a t Hd)
        as (_ & _ & _ & _ & _ & _ & Htr).
      rewrite Htr, ticks_app, watchdog_check_ticks. reflexivity.
    + destruct (incoming a) as [|data src srclen] eqn:Hr.
      * destruct (inner_iteration_faults_fields a t (conj Hd Hr))
          as (_ & _ & _ & _ & Htr).
        rewrite Htr, !ticks_app, watchdog_check_ticks.
        destruct (sock t =? -1); reflexivity.
      * destruct (inner_iteration_delivers_fields a t data src srclen
                    (conj Hd Hr)) as (_ & _ & _ & _ & _ & _ & _ & _ & Htr).
        rewrite Htr, ticks_app, watchdog_check_ticks. reflexivity.
  - lia.
Qed.

(** X9.  The task sleeps exactly in the iterations of the inner loop that
    find no data: such an iteration calls [vTaskDelay] once, every other
    step calls it not at all, and along any run there are as many delays as
    iterations without data.  So a datagram that is already waiting is
    handled at once, and after a failing [recvfrom] the socket is shut
    down and the head of the outer loop is passed without a pause. *)
Theorem sleeps_only_when_idle (l : list answers) (t : task) :
  ticks (trace (run process_request l t))
  = (ticks (trace t) + idle_iterations process_request l t)%nat /\
  (forall a, idles a t = true ->
     ticks (trace (step process_request a t)) = S (ticks (trace t))) /\
  (forall a, idles a t = false ->
     ticks (trace (step process_request a t)) = ticks (trace t)) /\
  (forall a, receives a t = true ->
     ticks (trace (step process_request a t)) = ticks (trace t)) /\
  (forall a a', pc t = InnerLoop -> faults a ->
     ticks (trace (step process_request a' (step process_request a t)))
     = ticks (trace t)).
Proof.
  split; [|split; [|split; [|split]]].
  - revert t. induction l as [|a l IH]; intros t;
      cbn [run idle_iterations]; [lia|].
    rewrite IH, step_ticks. lia.
  - intros a Hi. rewrite step_ticks, Hi. lia.
  - intros a Hi. rewrite step_ticks, Hi. lia.
  - intros a Hr. rewrite step_ticks.
    unfold receives in Hr. unfold idles.
    destruct (pc t); try discriminate.
    destruct (incoming a); try discriminate.
    apply Z.ltb_lt in Hr.
    replace (fionread a <=? 0) with false
      by (symmetry; apply Z.leb_gt; exact Hr).
    lia.
  - intros a a' Hpc [Hd Hr]. rewrite !step_ticks.
    rewrite (step_inner a t Hpc).
    destruct (inner_iteration_faults_fields a t (conj Hd Hr)) as (Hpc' & _).
    unfold idles. rewrite Hpc', Hpc.
    replace (fionread a <=? 0) with false
      by (symmetry; apply Z.leb_gt; exact Hd).
    lia.
Qed.

Lemma step_requests_sized (a : answers) (t : task) :
  length (buf t) = REQUEST_RESPONSE_BUF_SIZE ->
  Forall (fun r => length r = REQUEST_RESPONSE_BUF_SIZE)
    (requests (trace t)) ->
  Forall (fun r => length r = REQUEST_RESPONSE_BUF_SIZE)
    (requests (trace (step process_request a t))).
Proof.
  intros Hb Hall. destruct (receives a t) eqn:Hrecv.
  - revert Hrecv. unfold receives, step.
    destruct (pc t) eqn:Hpc; try discriminate.
    destruct (incoming a) as [|data src srclen] eqn:Hr; try discriminate.
    intros Hd. apply Z.ltb_lt in Hd.
    destruct (inner_iteration_delivers_fields a t data src srclen
                (conj Hd Hr)) as (_ & _ & _ & _ & _ & _ & _ & _ & Htr).
    rewrite Htr, requests_app, watchdog_check_requests.
    apply Forall_app. split; [exact Hall|].
    constructor; [|constructor]. apply received_into_length, Hb.
  - destruct (step_without_datagram a t Hrecv) as [_ Hreq].
    rewrite Hreq. exact Hall.
Qed.

(** X10.  [recvfrom] never writes past the buffer: whatever the lengths of the
    datagrams that arrive (empty, short, longer than the buffer), the
    buffer keeps its 9 bytes along every run, and every request handed to
    [process_request] is 9 bytes long. *)
Theorem requests_are_frame_sized (stack : list byte)
    (g : globals ControllerState) (l : list answers) :
  length stack = REQUEST_RESPONSE_BUF_SIZE ->
  length (buf (udp_server_task process_request stack g l))
  = REQUEST_RESPONSE_BUF_SIZE /\
  Forall (fun r => length r = REQUEST_RESPONSE_BUF_SIZE)
    (requests (trace (udp_server_task process_request stack g l))).
Proof.
  intros Hstack. unfold udp_server_task.
  split; [apply run_buf_length; exact Hstack|].
  assert (Hgen : forall l0 t,
             length (buf t) = REQUEST_RESPONSE_BUF_SIZE ->
             Forall (fun r => length r = REQUEST_RESPONSE_BUF_SIZE)
               (requests (trace t)) ->
             Forall (fun r => length r = REQUEST_RESPONSE_BUF_SIZE)
               (requests (trace (run process_request l0 t)))).
  { intros l0. induction l0 as [|a l0 IH]; intros t Hb Hall; [exact Hall|].
    cbn [run]. apply IH; [apply step_buf_length | apply step_requests_sized];
      assumption. }
  apply Hgen; [exact Hstack | constructor].
Qed.

End ServerProofs.

(** * Properties of the PID engine *)

Section PidProofs.

Variable num : Type.
Variable zero : num.
Variables add sub mul div : num -> num -> num.
Variables ltb leb : num -> num -> bool.
Variable is_finite : num -> bool.

(** The comparisons are those of IEEE 754: the numbers, that is the values
    that compare with themselves, are totally ordered, and whatever
    compares with something is a number.  NaN is not a number: none of
    its comparisons holds. *)
Hypothesis leb_total :
  forall x y, leb x x = true -> leb y y = true ->
              ltb x y = false -> leb y x = true.
Hypothesis leb_numbers :
  forall x y, leb x y = true -> leb x x = true /\ leb y y = true.

Local Abbreviation state := (Pid.ControllerState num).
Local Abbreviation step := (Pid.step zero add sub mul div ltb).
Local Abbreviation perform :=
  (Pid.perform zero add sub mul div ltb leb is_finite).
Local Abbreviation steps := (Pid.steps zero add sub mul div ltb leb is_finite).
Local Abbreviation numbers :=
  (Pid.numbers zero add sub mul div ltb leb is_finite).
Local Abbreviation accumulated := (Pid.accumulated add sub mul).
Local Abbreviation number := (Pid.number leb).
Local Abbreviation within := (Pid.within leb).
Local Abbreviation ordered := (Pid.ordered leb).

Lemma clamp_within (x : num) (l : Pid.limits num) :
  ordered l = true -> number x = true ->
  within (Pid.clamp ltb x l) l = true.
Proof.
  unfold Pid.ordered, Pid.number, Pid.within, Pid.clamp. intros Hl Hx.
  destruct (leb_numbers _ _ Hl) as [Hlo Hhi].
  destruct (ltb x (Pid.lim_min l)) eqn:Hlt.
  - rewrite Hlo, Hl. reflexivity.
  - destruct (ltb (Pid.lim_max l) x) eqn:Hgt.
    + rewrite Hhi, Hl. reflexivity.
    + rewrite (leb_total _ _ Hx Hlo Hlt), (leb_total _ _ Hhi Hx Hgt).
      reflexivity.
Qed.

Lemma step_done (m dt : num) (s s' : state) (out : num) :
  step m dt s = Pid.Done (s', out) ->
  ltb zero dt = true /\
  Pid.integral_limits s' = Pid.integral_limits s /\
  Pid.integral_accumulator s' =
    Pid.clamp ltb (accumulated m dt s) (Pid.integral_limits s).
Proof.
  unfold Pid.step. destruct (ltb zero dt); [|discriminate].
  intros H. injection H as H _. subst s'. repeat split; reflexivity.
Qed.

Lemma perform_step_cases (m dt : num) (s : state) :
  (ltb zero dt = false /\ perform (Pid.Step m dt) s = s) \/
  (ltb zero dt = true /\
   exists out, step m dt s = Pid.Done (perform (Pid.Step m dt) s, out)).
Proof.
  unfold Pid.perform, Pid.step. destruct (ltb zero dt).
  - right. split; [reflexivity|]. eexists. reflexivity.
  - left. split; reflexivity.
Qed.

Lemma perform_step_within (m dt : num) (s : state) :
  ordered (Pid.integral_limits s) = true ->
  within (Pid.integral_accumulator s) (Pid.integral_limits s) = true ->
  negb (ltb zero dt) || number (accumulated m dt s) = true ->
  Pid.integral_limits (perform (Pid.Step m dt) s) = Pid.integral_limits s /\
  within (Pid.integral_accumulator (perform (Pid.Step m dt) s))
    (Pid.integral_limits s) = true.
Proof.
  intros Hl Hw Hn.
  destruct (perform_step_cases m dt s) as [[_ Hs] | [Hdt [out Hs]]].
  - rewrite Hs. split; [reflexivity | exact Hw].
  - rewrite Hdt in Hn. cbn [negb orb] in Hn.
    destruct (step_done _ _ _ _ _ Hs) as (_ & Hlim & Hacc).
    rewrite Hlim, Hacc. split; [reflexivity | apply clamp_within; assumption].
Qed.

Lemma steps_within (l : list (num * num)) (s : state) :
  ordered (Pid.integral_limits s) = true ->
  within (Pid.integral_accumulator s) (Pid.integral_limits s) = true ->
  numbers l s = true ->
  Pid.integral_limits (steps l s) = Pid.integral_limits s /\
  within (Pid.integral_accumulator (steps l s)) (Pid.integral_limits s)
  = true.
Proof.
  revert s.
  induction l as [|[m dt] l IH]; intros s Hl Hw Hn;
    cbn [Pid.steps Pid.numbers] in *.
  - split; [reflexivity | exact Hw].
  - apply andb_true_iff in Hn. destruct Hn as [Hn Hrest].
    destruct (perform_step_within m dt s Hl Hw Hn) as [Hlim Hw'].
    destruct (IH (perform (Pid.Step m dt) s)) as [Hlim' Hw''];
      rewrite ?Hlim; try assumption.
    rewrite Hlim', Hlim. split; [reflexivity|].
    rewrite Hlim in Hw''. exact Hw''.
Qed.


End PidProofs.

(** * Properties of the Wi-Fi event handler *)

Lemma testbit_3 (n : Z) : 0 <= n -> Z.testbit 3 n = (n <? 2).
Proof.
  intros Hn. change 3 with (Z.ones 2).
  apply Z.testbit_ones_nonneg; lia.
Qed.

Lemma wait_satisfied_bits (w : wifi) :
  app_main_wait_satisfied w
  = Z.testbit (wifi_event_group w) 0 && Z.testbit (wifi_event_group w) 1.
Proof.
  unfold app_main_wait_satisfied, wait_bits_satisfied.
  change (Z.lor IPV4_GOTIP_BIT IPV6_GOTIP_BIT) with 3.
  set (g := wifi_event_group w).
  destruct (Z.eqb_spec (Z.land g 3) 3) as [H | H].
  - symmetry. apply andb_true_iff. split.
    + assert (H0 : Z.testbit (Z.land g 3) 0 = true) by (rewrite H; reflexivity).
      rewrite Z.land_spec in H0. apply andb_true_iff in H0. apply H0.
    + assert (H1 : Z.testbit (Z.land g 3) 1 = true) by (rewrite H; reflexivity).
      rewrite Z.land_spec in H1. apply andb_true_iff in H1. apply H1.
  - symmetry. apply not_true_is_false. intros Hb.
    apply andb_true_iff in Hb. destruct Hb as [Hb0 Hb1]. apply H.
    apply Z.bits_inj'. intros n Hn.
    rewrite Z.land_spec, testbit_3 by exact Hn.
    destruct (Z.ltb_spec n 2) as [Hlt | Hge]; [|apply andb_false_r].
    rewrite andb_true_r.
    assert (Hcase : n = 0 \/ n = 1) by lia.
    destruct Hcase; subst n; assumption.
Qed.

Lemma set_bit_spec (g : Z) (k n : Z) :
  0 <= k -> 0 <= n ->
  Z.testbit (xEventGroupSetBits g (2 ^ k)) n = Z.testbit g n || (k =? n).
Proof.
  intros Hk Hn. unfold xEventGroupSetBits.
  rewrite Z.lor_spec, Z.pow2_bits_eqb by exact Hk. reflexivity.
Qed.

Lemma clear_bit_spec (g : Z) (k n : Z) :
  0 <= k -> 0 <= n ->
  Z.testbit (xEventGroupClearBits g (2 ^ k)) n
  = Z.testbit g n && negb (k =? n).
Proof.
  intros Hk Hn. unfold xEventGroupClearBits.
  rewrite Z.ldiff_spec, Z.pow2_bits_eqb by exact Hk. reflexivity.
Qed.

(** What one event does to each flag of the group. *)
Lemma event_handler_bits (e : system_event_id) (w : wifi) (n : Z) :
  0 <= n ->
  Z.testbit (wifi_event_group (snd (event_handler e w))) n
  = if is_disconnected e then Z.testbit (wifi_event_group w) n && (2 <=? n)
    else Z.testbit (wifi_event_group w) n
         || (is_got_ip e && (n =? 0)) || (is_got_ip6 e && (n =? 1)).
Proof.
  intros Hn. unfold event_handler. cbn [snd].
  change IPV4_GOTIP_BIT with (2 ^ 0). change IPV6_GOTIP_BIT with (2 ^ 1).
  destruct e; cbn [wifi_event_group is_disconnected is_got_ip is_got_ip6
                   andb orb];
    rewrite ?orb_false_r; try reflexivity.
  - rewrite set_bit_spec by lia. rewrite (Z.eqb_sym 0 n). reflexivity.
  - rewrite !clear_bit_spec by lia.
    destruct (Z.testbit (wifi_event_group w) n); cbn [andb]; [|reflexivity].
    destruct (Z.eqb_spec 0 n), (Z.eqb_spec 1 n), (Z.leb_spec 2 n);
      try reflexivity; lia.
  - rewrite set_bit_spec by lia. rewrite (Z.eqb_sym 1 n). reflexivity.
Qed.

Lemma handle_events_app (l1 l2 : list system_event_id) (w : wifi) :
  handle_events (l1 ++ l2) w = handle_events l2 (handle_events l1 w).
Proof.
  revert w. induction l1 as [|e l1 IH]; intros w; [reflexivity|].
  cbn [app handle_events]. apply IH.
Qed.

(** The flags after a stretch of events without a disconnect. *)
Lemma handle_events_connected (l : list system_event_id) (w : wifi) (n : Z) :
  0 <= n ->
  existsb is_disconnected l = false ->
  Z.testbit (wifi_event_group (handle_events l w)) n
  = Z.testbit (wifi_event_group w) n
    || (existsb is_got_ip l && (n =? 0))
    || (existsb is_got_ip6 l && (n =? 1)).
Proof.
  intros Hn. revert w.
  induction l as [|e l IH]; intros w Hd; cbn [handle_events existsb] in *.
  - rewrite !orb_false_r. reflexivity.
  - apply orb_false_iff in Hd. destruct Hd as [He Hl].
    rewrite IH, event_handler_bits, He by assumption.
    destruct (Z.testbit (wifi_event_group w) n), (is_got_ip e),
      (is_got_ip6 e), (existsb is_got_ip l), (existsb is_got_ip6 l),
      (n =? 0), (n =? 1); reflexivity.
Qed.

(** X11.  [app_main] goes on exactly when, since the last disconnect, both an
    IPv4 and an IPv6 address were reported: a disconnect clears both
    flags whatever happened before it, and from the fresh group, as after
    a disconnect, the wait is satisfied if and only if both
    [SYSTEM_EVENT_STA_GOT_IP] and [SYSTEM_EVENT_AP_STA_GOT_IP6] have
    arrived; one address family alone never satisfies it. *)
Theorem wait_needs_both_addresses (l1 l2 : list system_event_id)
    (w : wifi) :
  existsb is_disconnected l2 = false ->
  app_main_wait_satisfied
    (handle_events (l1 ++ SYSTEM_EVENT_STA_DISCONNECTED :: l2) w)
  = existsb is_got_ip l2 && existsb is_got_ip6 l2 /\
  app_main_wait_satisfied (handle_events l2 wifi_start)
  = existsb is_got_ip l2 && existsb is_got_ip6 l2.
Proof.
  intros Hd. split.
  - rewrite handle_events_app. cbn [handle_events].
    rewrite wait_satisfied_bits.
    rewrite !handle_events_connected, !event_handler_bits by (lia || exact Hd).
    cbn. rewrite !andb_false_r, !andb_true_r, !orb_false_r. reflexivity.
  - rewrite wait_satisfied_bits.
    rewrite !handle_events_connected by (lia || exact Hd).
    cbn. rewrite !andb_false_r, !andb_true_r, !orb_false_r. reflexivity.
Qed.

(** X12.  The handler owns two flags only: whatever events arrive, every other
    flag of the group keeps its value, and a group that started empty
    never holds anything but the two address flags. *)
Theorem event_handler_touches_only_ip_bits (l : list system_event_id)
    (w : wifi) :
  (forall n, 2 <= n ->
     Z.testbit (wifi_event_group (handle_events l w)) n
     = Z.testbit (wifi_event_group w) n) /\
  (wifi_event_group w = 0 ->
   0 <= wifi_event_group (handle_events l w) <= 3).
Proof.
  assert (Hhigh : forall l w n, 2 <= n ->
            Z.testbit (wifi_event_group (handle_events l w)) n
            = Z.testbit (wifi_event_group w) n).
  { clear. induction l as [|e l IH]; intros w n Hn; [reflexivity|].
    cbn [handle_events]. rewrite IH, event_handler_bits by lia.
    replace (2 <=? n) with true by (symmetry; apply Z.leb_le; exact Hn).
    replace (n =? 0) with false by (symmetry; apply Z.eqb_neq; lia).
    replace (n =? 1) with false by (symmetry; apply Z.eqb_neq; lia).
    rewrite !andb_false_r, !orb_false_r, andb_true_r.
    destruct (is_disconnected e); reflexivity. }
  split; [apply Hhigh|].
  intros H0.
  assert (Hland : Z.land (wifi_event_group (handle_events l w)) (Z.ones 2)
                  = wifi_event_group (handle_events l w)).
  { apply Z.bits_inj'. intros n Hn.
    rewrite Z.land_spec, Z.testbit_ones_nonneg by lia.
    destruct (Z.ltb_spec n 2) as [Hlt | Hge]; [apply andb_true_r|].
    rewrite andb_false_r, Hhigh, H0 by exact Hge.
    symmetry. apply Z.testbit_0_l. }
  rewrite Z.land_ones in Hland by lia.
  rewrite <- Hland.
  change (2 ^ 2) with 4.
  pose proof (Z.mod_pos_bound (wifi_event_group (handle_events l w)) 4).
  lia.
Qed.

Lemma connect_calls_app (l1 l2 : list wifi_call) :
  connect_calls (l1 ++ l2) = (connect_calls l1 + connect_calls l2)%nat.
Proof.
  induction l1 as [|c l1 IH]; [reflexivity|].
  destruct c; cbn; rewrite IH; reflexivity.
Qed.

(** X13.  The handler never fails and asks the driver to connect once for every
    start and once for every disconnect, for no other event. *)
Theorem reconnects_on_every_disconnect (l : list system_event_id)
    (w : wifi) :
  (forall e w', fst (event_handler e w') = ESP_OK) /\
  connect_calls (wifi_calls (handle_events l w))
  = (connect_calls (wifi_calls w)
     + length (filter asks_to_connect l))%nat.
Proof.
  split; [reflexivity|].
  revert w. induction l as [|e l IH]; intros w;
    cbn [handle_events filter]; [cbn; lia|].
  rewrite IH.
  destruct e; cbn [event_handler snd wifi_calls asks_to_connect length];
    rewrite ?connect_calls_app; cbn [connect_calls]; lia.
Qed.

(** * The properties on concrete runs *)

Lemma echo_request_in_place : in_place echo_request.
Proof. intros b g. reflexivity. Qed.

Lemma repeat_no_data_idle (n : nat) : Forall idle (repeat no_data n).
Proof.
  apply Forall_forall. intros a Ha. apply repeat_spec in Ha. subst a.
  unfold idle. cbn. lia.
Qed.

(** C1, the claim as stated fails: a datagram of 3 bytes, not of 9, is
    received by the task right after it entered the inner loop; it is not
    discarded, a reply of 9 bytes goes back to its sender. *)
Lemma short_datagram_is_answered :
  length short_data <> REQUEST_RESPONSE_BUF_SIZE /\
  delivers (datagram short_data) short_data client sizeof_sockaddr_in6 /\
  requests
    (trace
       (udp_server_task echo_request zero_stack globals0
          [opened; datagram short_data]))
  = [[x01; x02; x03; x00; x00; x00; x00; x00; x00]] /\
  replies
    (trace
       (udp_server_task echo_request zero_stack globals0
          [opened; datagram short_data]))
  = [([x01; x02; x03; x00; x00; x00; x00; x00; x00], client)].
Proof.
  split; [discriminate|]. split; [split; reflexivity|].
  split; reflexivity.
Qed.

Lemma datagram_of_any_length_is_answered_witness :
  (in_place echo_request /\
   pc entered = InnerLoop /\
   length (buf entered) = REQUEST_RESPONSE_BUF_SIZE /\
   delivers (datagram short_data) short_data client sizeof_sockaddr_in6) /\
  replies (trace (step echo_request (datagram short_data) entered))
  = [([x01; x02; x03; x00; x00; x00; x00; x00; x00], client)] /\
  env (step echo_request (datagram short_data) entered) = globals0.
Proof.
  assert (H1 : pc entered = InnerLoop) by reflexivity.
  assert (H2 : length (buf entered) = REQUEST_RESPONSE_BUF_SIZE)
    by reflexivity.
  assert (H3 : delivers (datagram short_data) short_data client
                 sizeof_sockaddr_in6) by (split; reflexivity).
  split; [repeat split; first [exact echo_request_in_place | assumption]|].
  destruct (datagram_of_any_length_is_answered unit echo_request
              echo_request_in_place (datagram short_data) entered short_data
              client sizeof_sockaddr_in6 H1 H2 H3)
    as (_ & _ & Hrep & _ & Henv).
  split; [exact Hrep | exact Henv].
Defined.

Lemma watchdog_suspends_after_750_idle_ticks_witness :
  (pc entered = InnerLoop /\
   no_msg_cnt entered = 0 /\
   is_stream_stop entered = false /\
   Forall idle (repeat no_data 750) /\
   (length (repeat no_data 750) <= 750)%nat) /\
  watchdog_state (run echo_request (repeat no_data 750) entered) = ACTIVE /\
  stream_stops (trace (run echo_request (repeat no_data 750) entered))
  = stream_stops (trace entered) /\
  watchdog_state
    (watchdog_check (run echo_request (repeat no_data 750) entered))
  = SUSPENDED.
Proof.
  assert (H1 : pc entered = InnerLoop) by reflexivity.
  assert (H2 : no_msg_cnt entered = 0) by reflexivity.
  assert (H3 : is_stream_stop entered = false) by reflexivity.
  assert (H4 : Forall idle (repeat no_data 750))
    by apply repeat_no_data_idle.
  assert (H5 : (length (repeat no_data 750) <= 750)%nat)
    by (rewrite repeat_length; lia).
  split; [repeat split; assumption|].
  destruct (watchdog_suspends_after_750_idle_ticks unit echo_request
              (repeat no_data 750) entered H1 H2 H3 H4 H5)
    as (_ & Hact & _ & _ & Hstops & _ & _ & Hfire).
  destruct (Hfire (repeat_length no_data 750)) as (Hsus & _).
  repeat split; assumption.
Defined.

(** A run with a [process_request] that has no business with the stream:
    the client stays silent until the watchdog has stopped the stream, then
    a well-formed frame arrives and is processed; the watchdog is active
    again, the counter is 0, and the stream is still disabled. *)
Lemma request_does_not_restart_stream :
  stream_enabled (env entered) = true /\
  watchdog_state silent_run = SUSPENDED /\
  stream_enabled (env silent_run) = false /\
  watchdog_state (step echo_request (datagram frame_data) silent_run)
  = ACTIVE /\
  no_msg_cnt (step echo_request (datagram frame_data) silent_run) = 0 /\
  stream_enabled (env (step echo_request (datagram frame_data) silent_run))
  = false.
Proof. vm_compute. repeat split; reflexivity. Qed.

Lemma request_resumes_watchdog_witness :
  (pc silent_run = InnerLoop /\
   watchdog_state silent_run = SUSPENDED /\
   delivers (datagram frame_data) frame_data client sizeof_sockaddr_in6) /\
  watchdog_state (step echo_request (datagram frame_data) silent_run)
  = ACTIVE /\
  no_msg_cnt (step echo_request (datagram frame_data) silent_run) = 0.
Proof.
  assert (H1 : pc silent_run = InnerLoop) by (vm_compute; reflexivity).
  assert (H2 : watchdog_state silent_run = SUSPENDED)
    by (vm_compute; reflexivity).
  assert (H3 : delivers (datagram frame_data) frame_data client
                 sizeof_sockaddr_in6) by (split; reflexivity).
  split; [repeat split; assumption|].
  destruct (request_resumes_watchdog unit echo_request
              (datagram frame_data) silent_run frame_data client
              sizeof_sockaddr_in6 H1 H2 H3) as (Hact & Hcnt & _).
  split; assumption.
Defined.

(** C4, the claim as stated fails: in the suspended state an iteration
    without data leaves the idle counter at 750; it is not incremented. *)
Lemma suspended_tick_does_not_count :
  pc silent_run = InnerLoop /\
  watchdog_state silent_run = SUSPENDED /\
  idle no_data /\
  no_msg_cnt silent_run = 750 /\
  no_msg_cnt (step echo_request no_data silent_run) = 750 /\
  no_msg_cnt (step echo_request no_data silent_run)
  <> no_msg_cnt silent_run + 1.
Proof.
  assert (H : no_msg_cnt silent_run = 750) by (vm_compute; reflexivity).
  assert (H' : no_msg_cnt (step echo_request no_data silent_run) = 750)
    by (vm_compute; reflexivity).
  repeat split; try (vm_compute; reflexivity); try assumption.
  - unfold idle. cbn. lia.
  - rewrite H, H'. discriminate.
Qed.

Lemma idle_tick_counts_only_while_active_witness :
  (pc entered = InnerLoop /\ idle no_data /\ INT_MIN <= no_msg_cnt entered) /\
  no_msg_cnt (step echo_request no_data entered) = no_msg_cnt entered + 1 /\
  watchdog_state (step echo_request no_data entered) = ACTIVE.
Proof.
  assert (H1 : pc entered = InnerLoop) by reflexivity.
  assert (H2 : idle no_data) by (unfold idle; cbn; lia).
  assert (H3 : INT_MIN <= no_msg_cnt entered) by (vm_compute; discriminate).
  split; [repeat split; assumption|].
  destruct (idle_tick_counts_only_while_active unit echo_request no_data
              entered H1 H2 H3) as (Hact & _).
  apply Hact; reflexivity.
Defined.

Lemma one_reply_per_datagram_witness :
  (pc entered = InnerLoop /\
   delivers (datagram frame_data) frame_data client sizeof_sockaddr_in6 /\
   receives no_data entered = false) /\
  replies (trace (step echo_request (datagram frame_data) entered))
  = [(frame_data, client)] /\
  replies (trace (step echo_request no_data entered)) = [] /\
  length
    (replies
       (trace
          (run echo_request
             [datagram frame_data; no_data; datagram short_data] entered)))
  = 2%nat.
Proof.
  assert (H1 : pc entered = InnerLoop) by reflexivity.
  assert (H2 : delivers (datagram frame_data) frame_data client
                 sizeof_sockaddr_in6) by (split; reflexivity).
  assert (H3 : receives no_data entered = false) by reflexivity.
  split; [repeat split; assumption|].
  destruct (one_reply_per_datagram unit echo_request) as (Hone & Hnone & Hrun).
  split; [|split].
  - exact (proj1 (Hone (datagram frame_data) entered frame_data client
                    sizeof_sockaddr_in6 H1 H2)).
  - exact (proj1 (Hnone no_data entered H3)).
  - exact (Hrun [datagram frame_data; no_data; datagram short_data] entered).
Defined.

Lemma response_reuses_request_buffer_witness :
  (in_place echo_request /\
   length zero_stack = REQUEST_RESPONSE_BUF_SIZE) /\
  Forall (fun r => length (fst r) = REQUEST_RESPONSE_BUF_SIZE)
    (replies
       (trace
          (udp_server_task echo_request zero_stack globals0
             [opened; datagram short_data; datagram frame_data]))).
Proof.
  assert (H1 : length zero_stack = REQUEST_RESPONSE_BUF_SIZE) by reflexivity.
  split; [split; [exact echo_request_in_place | exact H1]|].
  destruct (response_reuses_request_buffer unit echo_request
              echo_request_in_place) as (_ & _ & Hrun).
  exact (Hrun zero_stack globals0
           [opened; datagram short_data; datagram frame_data] H1).
Defined.

Lemma transport_fault_keeps_controller_state_witness :
  (pc entered = InnerLoop /\ sock entered <> -1 /\ faults broken) /\
  pc (step echo_request broken entered) = OuterLoop /\
  pid_data (env (step echo_request broken entered)) = pid_data (env entered) /\
  trace (step echo_request opened (step echo_request broken entered))
  = [EvSocket 3; EvBind 3 0; EvIoctl 3 9; EvRecvFrom 3 (-1);
     EvShutdown 3; EvClose 3; EvSocket 3; EvBind 3 0].
Proof.
  assert (H1 : pc entered = InnerLoop) by reflexivity.
  assert (H2 : sock entered <> -1) by (cbn; discriminate).
  assert (H3 : faults broken) by (split; reflexivity).
  split; [repeat split; assumption|].
  destruct (transport_fault_keeps_controller_state unit echo_request broken
              entered H1 H2 H3) as (Hpc & Hpid & _ & _ & Hnext).
  split; [exact Hpc | split; [exact Hpid|]].
  destruct (Hnext opened) as (_ & Hre).
  destruct Hre as (_ & _ & Htr); [cbn; lia|].
  exact Htr.
Defined.

Lemma idle_counter_bounded_witness :
  pc (udp_server_task echo_request zero_stack globals0
        (opened :: repeat no_data 751)) = InnerLoop /\
  0 <= no_msg_cnt (udp_server_task echo_request zero_stack globals0
                     (opened :: repeat no_data 751))
    <= no_msg_cnt_warn.
Proof.
  assert (H1 : pc (udp_server_task echo_request zero_stack globals0
                     (opened :: repeat no_data 751)) = InnerLoop)
    by (vm_compute; reflexivity).
  split; [exact H1|].
  destruct (idle_counter_bounded unit echo_request zero_stack globals0
              (opened :: repeat no_data 751) H1) as (_ & Hb & _).
  exact Hb.
Defined.

Lemma buffer_zero_beyond_datagram_witness :
  (in_place echo_request /\
   length dirty_stack = REQUEST_RESPONSE_BUF_SIZE /\
   receives (datagram frame_data)
     (udp_server_task echo_request dirty_stack globals0 [opened]) = true /\
   delivers (datagram short_data) short_data client sizeof_sockaddr_in6) /\
  requests
    (trace
       (udp_server_task echo_request dirty_stack globals0
          [opened; datagram frame_data; no_data; datagram short_data]))
  = [frame_data; [x01; x02; x03; x00; x00; x00; x00; x00; x00]] /\
  requests
    (trace
       (udp_server_task echo_request dirty_stack globals0
          [opened; no_data; datagram short_data]))
  = [[x01; x02; x03; xaa; xaa; xaa; xaa; xaa; xaa]].
Proof.
  assert (H1 : length dirty_stack = REQUEST_RESPONSE_BUF_SIZE) by reflexivity.
  assert (H2 : receives (datagram frame_data)
                 (udp_server_task echo_request dirty_stack globals0 [opened])
               = true) by reflexivity.
  assert (H3 : delivers (datagram short_data) short_data client
                 sizeof_sockaddr_in6) by (split; reflexivity).
  assert (H4 : pc (run echo_request [no_data]
                     (step echo_request (datagram frame_data)
                        (udp_server_task echo_request dirty_stack globals0
                           [opened]))) = InnerLoop)
    by (vm_compute; reflexivity).
  assert (H5 : received echo_request [opened; no_data]
                 (task_start dirty_stack globals0) = O)
    by (vm_compute; reflexivity).
  assert (H6 : pc (udp_server_task echo_request dirty_stack globals0
                     [opened; no_data]) = InnerLoop)
    by (vm_compute; reflexivity).
  split; [repeat split; first [exact echo_request_in_place | assumption]|].
  destruct (buffer_zero_beyond_datagram unit echo_request
              echo_request_in_place) as (Hlater & Hfirst).
  pose proof (proj1 (Hlater dirty_stack globals0 [opened]
                       (datagram frame_data) [no_data] (datagram short_data)
                       short_data client sizeof_sockaddr_in6 H1 H2 H4 H3))
    as Ha.
  pose proof (Hfirst dirty_stack globals0 [opened; no_data]
                (datagram short_data) short_data client sizeof_sockaddr_in6
                H5 H6 H3) as Hb.
  vm_compute in Ha, Hb. vm_compute. split; [exact Ha | exact Hb].
Defined.

Lemma SFcompare_antisym (x y : SpecFloat.spec_float) :
  SpecFloat.SFcompare y x = option_map CompOpp (SpecFloat.SFcompare x y).
Proof.
  destruct x as [sx | sx | | sx mx ex], y as [sy | sy | | sy my ey];
    cbn [SpecFloat.SFcompare option_map];
    try reflexivity;
    try (destruct sx; reflexivity);
    try (destruct sy; reflexivity);
    try (destruct sx, sy; reflexivity).
  destruct sx, sy; try reflexivity;
    rewrite (Z.compare_antisym ex ey);
    destruct (ex ?= ey); cbn [CompOpp]; try reflexivity;
    rewrite (Pos.compare_cont_antisym mx my Eq); cbn [CompOpp];
    try reflexivity.
Qed.

(** The numbers of IEEE 754 are totally ordered. *)
Lemma SFleb_total (x y : SpecFloat.spec_float) :
  SpecFloat.SFleb x x = true -> SpecFloat.SFleb y y = true ->
  SpecFloat.SFltb x y = false -> SpecFloat.SFleb y x = true.
Proof.
  unfold SpecFloat.SFleb, SpecFloat.SFltb.
  rewrite (SFcompare_antisym x y).
  destruct (SpecFloat.SFcompare x y) as [c|] eqn:Hxy.
  - intros _ _. destruct c; cbn; congruence.
  - intros Hx Hy _. exfalso.
    destruct x, y; cbn in Hxy, Hx, Hy; discriminate.
Qed.

(** What compares with something is a number. *)
Lemma SFleb_numbers (x y : SpecFloat.spec_float) :
  SpecFloat.SFleb x y = true ->
  SpecFloat.SFleb x x = true /\ SpecFloat.SFleb y y = true.
Proof.
  unfold SpecFloat.SFleb.
  destruct x as [sx | sx | | sx mx ex], y as [sy | sy | | sy my ey];
    cbn [SpecFloat.SFcompare]; try discriminate; intros _; split;
    try reflexivity;
    try (destruct sx; reflexivity); try (destruct sy; reflexivity).
  all: try (destruct sx; rewrite Z.compare_refl, Pos.compare_cont_refl;
            reflexivity).
  all: try (destruct sy; rewrite Z.compare_refl, Pos.compare_cont_refl;
            reflexivity).
Qed.



(** * The further properties on concrete runs *)

Lemma socket_failure_ends_task_witness :
  (pc (task_start zero_stack globals0) = OuterLoop /\
   socket_ret socket_failed < 0) /\
  pc (step echo_request socket_failed (task_start zero_stack globals0))
  = TaskDeleted /\
  trace
    (run echo_request [datagram frame_data; no_data]
       (step echo_request socket_failed (task_start zero_stack globals0)))
  = [EvSocket (-1); EvTaskDelete].
Proof.
  assert (H1 : pc (task_start zero_stack globals0) = OuterLoop)
    by reflexivity.
  assert (H2 : socket_ret socket_failed < 0) by reflexivity.
  split; [exact (conj H1 H2)|].
  destruct (socket_failure_ends_task unit echo_request socket_failed
              (task_start zero_stack globals0)
              [datagram frame_data; no_data] H1 H2)
    as (Hpc & Htr & _ & Hrun).
  split; [exact Hpc|]. rewrite Hrun. exact Htr.
Defined.

Lemma bind_failure_is_ignored_witness :
  (pc (task_start zero_stack globals0) = OuterLoop /\
   0 <= socket_ret bind_failed /\
   bind_ret bind_failed < 0 /\
   idle no_data) /\
  pc (step echo_request bind_failed (task_start zero_stack globals0))
  = InnerLoop /\
  trace
    (step echo_request no_data
       (step echo_request bind_failed (task_start zero_stack globals0)))
  = [EvSocket 3; EvBind 3 (-1); EvIoctl 3 0; EvDelay 20].
Proof.
  assert (H1 : pc (task_start zero_stack globals0) = OuterLoop)
    by reflexivity.
  assert (H2 : 0 <= socket_ret bind_failed) by (cbn; lia).
  assert (H3 : bind_ret bind_failed < 0) by reflexivity.
  assert (H4 : idle no_data) by (unfold idle; cbn; lia).
  split; [exact (conj H1 (conj H2 (conj H3 H4)))|].
  destruct (bind_failure_is_ignored unit echo_request bind_failed no_data
              (task_start zero_stack globals0) H1 H2 H3 H4)
    as (Hpc & _ & _ & _ & Htr).
  split; [exact Hpc | exact Htr].
Defined.

Lemma silence_suspends_once_witness :
  (pc entered = InnerLoop /\
   no_msg_cnt entered = 0 /\
   is_stream_stop entered = false /\
   Forall idle (repeat no_data 1000) /\
   (750 < length (repeat no_data 1000))%nat) /\
  watchdog_state (run echo_request (repeat no_data 1000) entered)
  = SUSPENDED /\
  no_msg_cnt (run echo_request (repeat no_data 1000) entered) = 750 /\
  stream_stops (trace (run echo_request (repeat no_data 1000) entered))
  = S (stream_stops (trace entered)).
Proof.
  assert (H1 : pc entered = InnerLoop) by reflexivity.
  assert (H2 : no_msg_cnt entered = 0) by reflexivity.
  assert (H3 : is_stream_stop entered = false) by reflexivity.
  assert (H4 : Forall idle (repeat no_data 1000))
    by apply repeat_no_data_idle.
  assert (H5 : (750 < length (repeat no_data 1000))%nat)
    by (rewrite repeat_length; lia).
  split; [exact (conj H1 (conj H2 (conj H3 (conj H4 H5))))|].
  destruct (silence_suspends_once unit echo_request (repeat no_data 1000)
              entered H1 H2 H3 H4 H5) as (_ & Hsus & Hcnt & _ & Hst & _).
  exact (conj Hsus (conj Hcnt Hst)).
Defined.

Lemma request_at_timeout_still_stops_stream_witness :
  (pc (run echo_request (repeat no_data 750) entered) = InnerLoop /\
   is_stream_stop (run echo_request (repeat no_data 750) entered) = false /\
   no_msg_cnt_warn
   <= no_msg_cnt (run echo_request (repeat no_data 750) entered) /\
   delivers (datagram frame_data) frame_data client sizeof_sockaddr_in6) /\
  watchdog_state
    (step echo_request (datagram frame_data)
       (run echo_request (repeat no_data 750) entered)) = ACTIVE /\
  stream_enabled
    (env (step echo_request (datagram frame_data)
            (run echo_request (repeat no_data 750) entered))) = false.
Proof.
  assert (H1 : pc (run echo_request (repeat no_data 750) entered)
               = InnerLoop) by (vm_compute; reflexivity).
  assert (H2 : is_stream_stop (run echo_request (repeat no_data 750) entered)
               = false) by (vm_compute; reflexivity).
  assert (H3 : no_msg_cnt_warn
               <= no_msg_cnt (run echo_request (repeat no_data 750) entered))
    by (vm_compute; discriminate).
  assert (H4 : delivers (datagram frame_data) frame_data client
                 sizeof_sockaddr_in6) by (split; reflexivity).
  split; [exact (conj H1 (conj H2 (conj H3 H4)))|].
  destruct (request_at_timeout_still_stops_stream unit echo_request
              (datagram frame_data)
              (run echo_request (repeat no_data 750) entered)
              frame_data client sizeof_sockaddr_in6 H1 H2 H3 H4)
    as (Hact & _ & Henv & _).
  split; [exact Hact|]. rewrite Henv. reflexivity.
Defined.

Lemma request_postpones_suspension_witness :
  (pc silent_run = InnerLoop /\
   delivers (datagram frame_data) frame_data client sizeof_sockaddr_in6 /\
   Forall idle (repeat no_data 750) /\
   (length (repeat no_data 750) <= 750)%nat) /\
  watchdog_state
    (run echo_request (repeat no_data 750)
       (step echo_request (datagram frame_data) silent_run)) = ACTIVE /\
  stream_stops
    (trace
       (run echo_request (repeat no_data 750)
          (step echo_request (datagram frame_data) silent_run)))
  = stream_stops
      (trace (step echo_request (datagram frame_data) silent_run)).
Proof.
  assert (H1 : pc silent_run = InnerLoop) by (vm_compute; reflexivity).
  assert (H2 : delivers (datagram frame_data) frame_data client
                 sizeof_sockaddr_in6) by (split; reflexivity).
  assert (H3 : Forall idle (repeat no_data 750))
    by apply repeat_no_data_idle.
  assert (H4 : (length (repeat no_data 750) <= 750)%nat)
    by (rewrite repeat_length; lia).
  split; [exact (conj H1 (conj H2 (conj H3 H4)))|].
  destruct (request_postpones_suspension unit echo_request
              (datagram frame_data) silent_run frame_data client
              sizeof_sockaddr_in6 (repeat no_data 750) H1 H2 H3 H4)
    as (_ & _ & Hact & _ & _ & Hst & _).
  exact (conj Hact Hst).
Defined.

Lemma only_requests_touch_controller_state_witness :
  received echo_request [broken; opened; no_data] silent_run = O /\
  pid_data (env (run echo_request [broken; opened; no_data] silent_run))
  = pid_data (env silent_run).
Proof.
  assert (H1 : received echo_request [broken; opened; no_data] silent_run
               = O) by (vm_compute; reflexivity).
  split; [exact H1|].
  exact (proj1 (only_requests_touch_controller_state unit echo_request
                  [broken; opened; no_data] silent_run H1)).
Defined.

Lemma full_frame_overwrites_buffer_witness :
  (pc (step echo_request opened (task_start dirty_stack globals0))
   = InnerLoop /\
   length (buf (step echo_request opened (task_start dirty_stack globals0)))
   = REQUEST_RESPONSE_BUF_SIZE /\
   delivers (datagram long_data) long_data client sizeof_sockaddr_in6 /\
   (REQUEST_RESPONSE_BUF_SIZE <= length long_data)%nat) /\
  requests
    (trace
       (step echo_request (datagram long_data)
          (step echo_request opened (task_start dirty_stack globals0))))
  = [[x02; x11; x12; x13; x14; x21; x22; x23; x24]].
Proof.
  assert (H1 : pc (step echo_request opened
                     (task_start dirty_stack globals0)) = InnerLoop)
    by reflexivity.
  assert (H2 : length (buf (step echo_request opened
                              (task_start dirty_stack globals0)))
               = REQUEST_RESPONSE_BUF_SIZE) by reflexivity.
  assert (H3 : delivers (datagram long_data) long_data client
                 sizeof_sockaddr_in6) by (split; reflexivity).
  assert (H4 : (REQUEST_RESPONSE_BUF_SIZE <= length long_data)%nat)
    by (vm_compute; lia).
  split; [exact (conj H1 (conj H2 (conj H3 H4)))|].
  destruct (full_frame_overwrites_buffer unit echo_request
              echo_request_in_place (datagram long_data)
              (step echo_request opened (task_start dirty_stack globals0))
              long_data client sizeof_sockaddr_in6 H1 H2 H3 H4)
    as (Hreq & _).
  exact Hreq.
Defined.

Lemma fault_restarts_watchdog_witness :
  (pc silent_run = InnerLoop /\
   is_stream_stop silent_run = true /\
   faults broken /\
   0 <= socket_ret opened /\
   Forall idle (repeat no_data 750) /\
   length (repeat no_data 750) = 750%nat) /\
  watchdog_state (step echo_request opened (step echo_request broken silent_run))
  = ACTIVE /\
  env (step echo_request opened (step echo_request broken silent_run))
  = env silent_run /\
  stream_stops
    (trace
       (watchdog_check
          (run echo_request (repeat no_data 750)
             (step echo_request opened
                (step echo_request broken silent_run)))))
  = S (stream_stops (trace silent_run)).
Proof.
  assert (H1 : pc silent_run = InnerLoop) by (vm_compute; reflexivity).
  assert (H2 : is_stream_stop silent_run = true) by (vm_compute; reflexivity).
  assert (H3 : faults broken) by (split; reflexivity).
  assert (H4 : 0 <= socket_ret opened) by (cbn; lia).
  assert (H5 : Forall idle (repeat no_data 750))
    by apply repeat_no_data_idle.
  assert (H6 : length (repeat no_data 750) = 750%nat)
    by apply repeat_length.
  split; [exact (conj H1 (conj H2 (conj H3 (conj H4 (conj H5 H6)))))|].
  destruct (fault_restarts_watchdog unit echo_request broken opened
              silent_run (repeat no_data 750) H1 H2 H3 H4 H5 H6)
    as (_ & Hact & _ & Henv & _ & _ & _ & Hst).
  exact (conj Hact (conj Henv Hst)).
Defined.

Lemma requests_are_frame_sized_witness :
  length dirty_stack = REQUEST_RESPONSE_BUF_SIZE /\
  Forall (fun r => length r = REQUEST_RESPONSE_BUF_SIZE)
    (requests
       (trace
          (udp_server_task echo_request dirty_stack globals0
             [opened; datagram long_data; datagram short_data]))).
Proof.
  assert (H1 : length dirty_stack = REQUEST_RESPONSE_BUF_SIZE) by reflexivity.
  split; [exact H1|].
  exact (proj2 (requests_are_frame_sized unit echo_request
                  echo_request_in_place dirty_stack globals0
                  [opened; datagram long_data; datagram short_data] H1)).
Defined.

Lemma wait_needs_both_addresses_witness :
  existsb is_disconnected
    [SYSTEM_EVENT_STA_CONNECTED; SYSTEM_EVENT_STA_GOT_IP] = false /\
  app_main_wait_satisfied
    (handle_events
       ([SYSTEM_EVENT_STA_START; SYSTEM_EVENT_STA_CONNECTED;
         SYSTEM_EVENT_STA_GOT_IP; SYSTEM_EVENT_AP_STA_GOT_IP6]
        ++ SYSTEM_EVENT_STA_DISCONNECTED
           :: [SYSTEM_EVENT_STA_CONNECTED; SYSTEM_EVENT_STA_GOT_IP])
       wifi_start)
  = false.
Proof.
  assert (H1 : existsb is_disconnected
                 [SYSTEM_EVENT_STA_CONNECTED; SYSTEM_EVENT_STA_GOT_IP]
               = false) by reflexivity.
  split; [exact H1|].
  exact (proj1 (wait_needs_both_addresses
                  [SYSTEM_EVENT_STA_START; SYSTEM_EVENT_STA_CONNECTED;
                   SYSTEM_EVENT_STA_GOT_IP; SYSTEM_EVENT_AP_STA_GOT_IP6]
                  [SYSTEM_EVENT_STA_CONNECTED; SYSTEM_EVENT_STA_GOT_IP]
                  wifi_start H1)).
Defined.

Lemma event_handler_touches_only_ip_bits_witness :
  (2 <= 5 /\ wifi_event_group wifi_start = 0) /\
  Z.testbit
    (wifi_event_group
       (handle_events
          [SYSTEM_EVENT_STA_GOT_IP; SYSTEM_EVENT_AP_STA_GOT_IP6]
          {| wifi_event_group := 32; wifi_calls := [] |})) 5
  = true /\
  0 <= wifi_event_group
         (handle_events
            [SYSTEM_EVENT_STA_GOT_IP; SYSTEM_EVENT_AP_STA_GOT_IP6]
            wifi_start) <= 3.
Proof.
  assert (H1 : 2 <= 5) by lia.
  assert (H2 : wifi_event_group wifi_start = 0) by reflexivity.
  split; [exact (conj H1 H2)|]. split.
  - exact (proj1 (event_handler_touches_only_ip_bits
                    [SYSTEM_EVENT_STA_GOT_IP; SYSTEM_EVENT_AP_STA_GOT_IP6]
                    {| wifi_event_group := 32; wifi_calls := [] |}) 5 H1).
  - exact (proj2 (event_handler_touches_only_ip_bits
                    [SYSTEM_EVENT_STA_GOT_IP; SYSTEM_EVENT_AP_STA_GOT_IP6]
                    wifi_start) H2).
Defined.

Lemma sleeps_only_when_idle_witness :
  (idles no_data entered = true /\
   receives (datagram frame_data) entered = true /\
   pc entered = InnerLoop /\
   faults broken) /\
  ticks (trace (step echo_request no_data entered))
  = S (ticks (trace entered)) /\
  ticks (trace (step echo_request (datagram frame_data) entered))
  = ticks (trace entered) /\
  ticks (trace (step echo_request opened (step echo_request broken entered)))
  = ticks (trace entered).
Proof.
  assert (H1 : idles no_data entered = true) by reflexivity.
  assert (H2 : receives (datagram frame_data) entered = true)
    by reflexivity.
  assert (H3 : pc entered = InnerLoop) by reflexivity.
  assert (H4 : faults broken) by (split; reflexivity).
  split; [exact (conj H1 (conj H2 (conj H3 H4)))|].
  destruct (sleeps_only_when_idle unit echo_request [] entered)
    as (_ & Hidle & _ & Hrecv & Hfault).
  exact (conj (Hidle no_data H1)
           (conj (Hrecv (datagram frame_data) H2)
              (Hfault broken opened H3 H4))).
Defined.
